(** * Amazon list-view popup: a shallow embedding of [popup.js]

    The development follows the source file: the page-context extractor
    [extractAmazonResultsWithFrameInfo], the popup controller
    [handleExtract] and the row filter [applyFilters].

    Conventions of the embedding.
    - JavaScript strings are [string]s of ASCII code units; the character
      classes of the source ([\d], whitespace, letter case) are the ASCII
      ones, and other code units never belong to them.  Where a statement
      about the filter has to hold of text beyond ASCII, the lower-casing
      is a parameter ([FilterWith]).
    - JavaScript numbers are modelled by [number]: the exact rationals
      extended with [NaN] and the two infinities.  Arithmetic is exact:
      binary64 rounding, overflow and the sign of zero are outside the model.
    - Exceptions are values of [exn] in ExtLib's error monad [sum exn]. *)

From Stdlib Require Import String Ascii List Bool ZArith QArith Qround Lia Lqa.
From Stdlib Require Import Sorting.Sorted Sorting.Permutation.
From Stdlib Require Import DecimalString.
From ExtLib Require Import Structures.Monad Structures.MonadExc Data.Monads.EitherMonad.
Import ListNotations.
Import MonadNotation.
Local Open Scope string_scope.
Local Open Scope monad_scope.

(** ** Strings *)

Module Str.

(** The double-quote character, as a one-character string. *)
Definition dq : string := String (ascii_of_nat 34) EmptyString.

Definition is_digit (c : ascii) : bool :=
  let n := nat_of_ascii c in (48 <=? n)%nat && (n <=? 57)%nat.

(** ASCII members of the [WhiteSpace] and [LineTerminator] productions. *)
Definition is_space (c : ascii) : bool :=
  let n := nat_of_ascii c in
  ((9 <=? n)%nat && (n <=? 13)%nat) || (n =? 32)%nat.

Definition lower_ascii (c : ascii) : ascii :=
  let n := nat_of_ascii c in
  if (65 <=? n)%nat && (n <=? 90)%nat then ascii_of_nat (n + 32) else c.

(** [String.prototype.toLowerCase]. *)
Fixpoint toLowerCase (s : string) : string :=
  match s with
  | EmptyString => EmptyString
  | String c r => String (lower_ascii c) (toLowerCase r)
  end.

(** [s.startsWith(p)]. *)
Fixpoint startsWith (p s : string) : bool :=
  match p, s with
  | EmptyString, _ => true
  | String a p', String b s' => Ascii.eqb a b && startsWith p' s'
  | String _ _, EmptyString => false
  end.

(** [s.includes(sub)]. *)
Fixpoint includes (s sub : string) : bool :=
  startsWith sub s ||
  match s with
  | EmptyString => false
  | String _ r => includes r sub
  end.

Fixpoint drop (n : nat) (s : string) : string :=
  match n, s with
  | O, _ => s
  | S n', String _ r => drop n' r
  | S _, EmptyString => EmptyString
  end.

(** Longest prefix of characters satisfying [p], and the remainder. *)
Fixpoint span (p : ascii -> bool) (s : string) : string * string :=
  match s with
  | EmptyString => (EmptyString, EmptyString)
  | String c r =>
      if p c then let '(a, b) := span p r in (String c a, b)
      else (EmptyString, s)
  end.

Fixpoint trimStart (s : string) : string :=
  match s with
  | String c r => if is_space c then trimStart r else s
  | EmptyString => EmptyString
  end.

Fixpoint rev_string (s : string) (acc : string) : string :=
  match s with
  | EmptyString => acc
  | String c r => rev_string r (String c acc)
  end.

Definition trimEnd (s : string) : string :=
  rev_string (trimStart (rev_string s EmptyString)) EmptyString.

(** [String.prototype.trim]. *)
Definition trim (s : string) : string := trimEnd (trimStart s).

(** [s.replace(pat, rep)] for a string pattern: the first occurrence only. *)
Fixpoint replace (pat rep s : string) : string :=
  if startsWith pat s then rep ++ drop (String.length pat) s
  else match s with
       | EmptyString => EmptyString
       | String c r => String c (replace pat rep r)
       end.

(** [s.replace(/c/g, '')] for a one-character pattern: every occurrence. *)
Fixpoint remove_all (c : ascii) (s : string) : string :=
  match s with
  | EmptyString => EmptyString
  | String a r => if Ascii.eqb a c then remove_all c r else String a (remove_all c r)
  end.

(** The separators of a class attribute: tab, line feed, form feed,
    carriage return and space. *)
Definition is_separator (c : ascii) : bool :=
  let n := nat_of_ascii c in
  (n =? 9)%nat || (n =? 10)%nat || (n =? 12)%nat || (n =? 13)%nat || (n =? 32)%nat.

(** Tokens of a space-separated attribute value (a class list). *)
Fixpoint tokens_aux (s : string) (cur : string) : list string :=
  let flush := match cur with EmptyString => [] | _ => [rev_string cur EmptyString] end in
  match s with
  | EmptyString => flush
  | String c r => if is_separator c then flush ++ tokens_aux r EmptyString
                  else tokens_aux r (String c cur)
  end.

Definition tokens (s : string) : list string := tokens_aux s EmptyString.

(** JavaScript truthiness of a string: non-empty. *)
Definition truthy (s : string) : bool :=
  match s with EmptyString => false | _ => true end.

End Str.

(** ** Numbers *)

Inductive number : Type :=
| NaN
| PInf
| NInf
| Fin (q : Q).

Module Num.

Definition of_Z (z : Z) : number := Fin (inject_Z z).

Definition neg (a : number) : number :=
  match a with
  | NaN => NaN | PInf => NInf | NInf => PInf | Fin q => Fin (- q)
  end.

(** [a - b]. *)
Definition sub (a b : number) : number :=
  match a, b with
  | NaN, _ | _, NaN => NaN
  | PInf, PInf | NInf, NInf => NaN
  | PInf, _ => PInf
  | NInf, _ => NInf
  | Fin _, PInf => NInf
  | Fin _, NInf => PInf
  | Fin x, Fin y => Fin (x - y)
  end.

(** Sign of a rational as a comparison with zero. *)
Definition sgn (q : Q) : comparison := Qcompare q 0.

(** [a * b]. *)
Definition mul (a b : number) : number :=
  match a, b with
  | NaN, _ | _, NaN => NaN
  | Fin x, Fin y => Fin (x * y)
  | PInf, PInf | NInf, NInf => PInf
  | PInf, NInf | NInf, PInf => NInf
  | PInf, Fin y | Fin y, PInf =>
      match sgn y with Eq => NaN | Gt => PInf | Lt => NInf end
  | NInf, Fin y | Fin y, NInf =>
      match sgn y with Eq => NaN | Gt => NInf | Lt => PInf end
  end.

(** [a / b]; a zero divisor counts as [+0]. *)
Definition div (a b : number) : number :=
  match a, b with
  | NaN, _ | _, NaN => NaN
  | Fin x, Fin y =>
      match sgn y with
      | Eq => match sgn x with Eq => NaN | Gt => PInf | Lt => NInf end
      | _ => Fin (x / y)
      end
  | Fin _, _ => Fin 0
  | PInf, Fin y => match sgn y with Lt => NInf | _ => PInf end
  | NInf, Fin y => match sgn y with Lt => PInf | _ => NInf end
  | _, _ => NaN
  end.

(** [a < b]: false as soon as one side is [NaN]. *)
Definition ltb (a b : number) : bool :=
  match a, b with
  | NaN, _ | _, NaN => false
  | _, NInf => false
  | PInf, _ => false
  | NInf, _ => true
  | Fin _, PInf => true
  | Fin x, Fin y => match Qcompare x y with Lt => true | _ => false end
  end.

(** [a > b]. *)
Definition gtb (a b : number) : bool := ltb b a.

(** [a <= b]. *)
Definition leb (a b : number) : bool :=
  match a, b with
  | NaN, _ | _, NaN => false
  | NInf, _ => true
  | _, PInf => true
  | PInf, _ => false
  | Fin _, NInf => false
  | Fin x, Fin y => match Qcompare x y with Gt => false | _ => true end
  end.

(** [a === b] on numbers: [NaN] differs from itself. *)
Definition eqb (a b : number) : bool :=
  match a, b with
  | PInf, PInf | NInf, NInf => true
  | Fin x, Fin y => Qeq_bool x y
  | _, _ => false
  end.

(** [Math.max(a, b)]. *)
Definition max (a b : number) : number :=
  match a, b with
  | NaN, _ | _, NaN => NaN
  | _, _ => if ltb a b then b else a
  end.

End Num.

(** ** Number parsing and printing *)

Module Parse.
Import Str.

Definition digit_val (c : ascii) : Z := Z.of_nat (nat_of_ascii c - 48).

Fixpoint digits_to_Z (s : string) (acc : Z) : Z :=
  match s with
  | EmptyString => acc
  | String c r => digits_to_Z r (10 * acc + digit_val c)
  end.

(** Value of the decimal literal [ip.fp] times ten to the [e]. *)
Definition decimal (ip fp : string) (e : Z) : Q :=
  let m := digits_to_Z (ip ++ fp) 0 in
  let sh := (e - Z.of_nat (String.length fp))%Z in
  if (0 <=? sh)%Z then inject_Z (m * 10 ^ sh)
  else Qmake m (Z.to_pos (10 ^ (- sh))).

Definition is_e (c : ascii) : bool :=
  Ascii.eqb c "e"%char || Ascii.eqb c "E"%char.

(** [ExponentPart], when one is present at the head of [s]; 0 otherwise. *)
Definition parse_exponent (s : string) : Z :=
  match s with
  | String c r =>
      if is_e c then
        let '(sg, r') :=
          match r with
          | String "+"%char r1 => (1%Z, r1)
          | String "-"%char r1 => ((-1)%Z, r1)
          | _ => (1%Z, r)
          end in
        let '(ds, _) := span is_digit r' in
        if truthy ds then (sg * digits_to_Z ds 0)%Z else 0%Z
      else 0%Z
  | EmptyString => 0%Z
  end.

(** [parseFloat(s)]: leading white space is skipped and the longest prefix
    that is a [StrDecimalLiteral] is read; [NaN] when there is none. *)
Definition parseFloat (s : string) : number :=
  let s0 := trimStart s in
  let '(negative, s1) :=
    match s0 with
    | String "-"%char r => (true, r)
    | String "+"%char r => (false, r)
    | _ => (false, s0)
    end in
  let mag :=
    if startsWith "Infinity" s1 then PInf
    else
      let '(ip, r) := span is_digit s1 in
      let '(fp, r') :=
        match r with
        | String "."%char r1 => span is_digit r1
        | _ => (EmptyString, r)
        end in
      if truthy ip || truthy fp then Fin (decimal ip fp (parse_exponent r'))
      else NaN in
  if negative then Num.neg mag else mag.

(** [parseInt(s)] without a radix.  The source calls it on a capture of
    [\d+] only, where the hexadecimal prefix of the general function
    cannot occur; the decimal reading is the one modelled. *)
Definition parseInt (s : string) : number :=
  let s0 := trimStart s in
  let '(negative, s1) :=
    match s0 with
    | String "-"%char r => (true, r)
    | String "+"%char r => (false, r)
    | _ => (false, s0)
    end in
  let '(ds, _) := span is_digit s1 in
  let mag := if truthy ds then Num.of_Z (digits_to_Z ds 0) else NaN in
  if negative then Num.neg mag else mag.

Definition string_of_Z (z : Z) : string :=
  NilZero.string_of_uint (N.to_uint (Z.to_N z)).

Fixpoint zeros (n : nat) : string :=
  match n with O => EmptyString | S n' => String "0"%char (zeros n') end.

(** [x.toFixed(2)].  The integer [n] with [n / 100 - x] closest to zero is
    taken, the larger one on a tie.  From 10^21 on JavaScript prints the
    number in exponent notation instead, with the digits of the binary64
    value; the model keeps the positional notation there. *)
Definition toFixed2 (a : number) : string :=
  match a with
  | NaN => "NaN"
  | PInf => "Infinity"
  | NInf => "-Infinity"
  | Fin q =>
      let negative := match Qcompare q 0 with Lt => true | _ => false end in
      let x := if negative then (- q)%Q else q in
      let n := Qfloor (x * 100 + (1 # 2)) in
      let m := string_of_Z n in
      let k := String.length m in
      let m' := if (k <=? 2)%nat then zeros (3 - k) ++ m else m in
      let k' := String.length m' in
      (if negative then "-" else "") ++
      String.substring 0 (k' - 2) m' ++ "." ++ String.substring (k' - 2) 2 m'
  end.

End Parse.

(** ** Regular expressions of the source *)

Module Regex.
Import Str.

(** [startsWith] under the [i] flag: ASCII letters match in either case. *)
Fixpoint startsWith_ci (p s : string) : bool :=
  match p, s with
  | EmptyString, _ => true
  | String a p', String b s' =>
      Ascii.eqb (lower_ascii a) (lower_ascii b) && startsWith_ci p' s'
  | String _ _, EmptyString => false
  end.

(** A pattern without anchors is tried at every position from the left;
    the first position where it matches gives the result of [match]. *)
Fixpoint search {A : Type} (at_head : string -> option A) (s : string) : option A :=
  match at_head s with
  | Some m => Some m
  | None =>
      match s with
      | EmptyString => None
      | String _ r => search at_head r
      end
  end.

(** The pattern of the coupon's final price at the head of [s], under the
    [i] flag: the words You pay, a dollar sign, then group 1, which is
    [\d+], an optional dot and [\d*], all greedy.  The result is group 1. *)
Definition youPay_at (s : string) : option string :=
  if startsWith_ci "You pay $" s then
    let '(d1, r1) := span is_digit (drop 9 s) in
    if truthy d1 then
      let '(dot, r2) :=
        match r1 with
        | String "."%char r => (".", r)
        | _ => (EmptyString, r1)
        end in
      let '(d2, _) := span is_digit r2 in
      Some (d1 ++ dot ++ d2)
    else None
  else None.

(** [text.match] of that pattern, reduced to its group 1. *)
Definition match_youPay : string -> option string := search youPay_at.

(** [/(\d+)%/] at the head of [s]: the greedy digit run has to be followed
    by the percent sign (giving digits back cannot help). *)
Definition percent_at (s : string) : option string :=
  let '(ds, r) := span is_digit s in
  if truthy ds then
    match r with
    | String "%"%char _ => Some ds
    | _ => None
    end
  else None.

Definition match_percent : string -> option string := search percent_at.

(** [/\$(\d+(\.\d{2})?)/] at the head of [s]: group 1, with the optional
    two-digit fraction when it is there. *)
Definition dollar_at (s : string) : option string :=
  match s with
  | String "$"%char r =>
      let '(ds, r1) := span is_digit r in
      if truthy ds then
        match r1 with
        | String "."%char (String a (String b _)) =>
            if is_digit a && is_digit b
            then Some (ds ++ String "."%char (String a (String b EmptyString)))
            else Some ds
        | _ => Some ds
        end
      else None
  | _ => None
  end.

Definition match_dollar : string -> option string := search dollar_at.

(** [/^https?:\/\/(www\.)?amazon\./] as a test. *)
Definition amazon_url (u : string) : bool :=
  if startsWith "http" u then
    let r := drop 4 u in
    let r := if startsWith "s" r then drop 1 r else r in
    if startsWith "://" r then
      let r := drop 3 r in
      (startsWith "www." r && startsWith "amazon." (drop 4 r))
      || startsWith "amazon." r
    else false
  else false.

End Regex.

(** ** The document object model *)

Module Dom.
Import Str.

Definition attributes := list (string * string).

(** Elements and text nodes.  [innerText] and [href] depend on layout and
    on URL resolution: they are properties the browser supplies, [None]
    standing for [undefined] (an element without that property). *)
Inductive node : Type :=
| Text (data : string)
| Elem (e : element)
with element : Type :=
| mkElement (tagName : string) (attrs : attributes)
            (innerText : option string) (href : option string)
            (childNodes : list node).

Definition tagName (e : element) : string :=
  match e with mkElement t _ _ _ _ => t end.
Definition attrs (e : element) : attributes :=
  match e with mkElement _ a _ _ _ => a end.
Definition innerText (e : element) : option string :=
  match e with mkElement _ _ i _ _ => i end.
Definition href (e : element) : option string :=
  match e with mkElement _ _ _ h _ => h end.
Definition childNodes (e : element) : list node :=
  match e with mkElement _ _ _ _ k => k end.

(** [e.getAttribute(k)]; [None] is [null]. *)
Fixpoint lookup (k : string) (a : attributes) : option string :=
  match a with
  | [] => None
  | (k', v) :: a' => if String.eqb k k' then Some v else lookup k a'
  end.

Definition getAttribute (e : element) (k : string) : option string :=
  lookup k (attrs e).

Definition classList (e : element) : list string :=
  match getAttribute e "class" with
  | Some v => tokens v
  | None => []
  end.

(** [n.textContent]: the text of the descendants, in tree order. *)
Fixpoint textContent_node (n : node) : string :=
  match n with
  | Text d => d
  | Elem (mkElement _ _ _ _ kids) =>
      (fix go (l : list node) : string :=
         match l with
         | [] => EmptyString
         | k :: l' => textContent_node k ++ go l'
         end) kids
  end.

Definition textContent (e : element) : string := textContent_node (Elem e).

(** An element together with its ancestors, the nearest first: selectors
    are matched against the whole tree, also from [Element.querySelector]. *)
Record located : Type := mkLocated { ancestors : list element; self : element }.

(** The proper descendants of [e] that are elements, in tree order. *)
Fixpoint descendants (anc : list element) (e : element) : list located :=
  match e with
  | mkElement _ _ _ _ kids =>
      (fix go (l : list node) : list located :=
         match l with
         | [] => []
         | Text _ :: l' => go l'
         | Elem c :: l' =>
             mkLocated (e :: anc) c :: (descendants (e :: anc) c ++ go l')
         end) kids
  end.

(** The selector fragment the source uses: compound selectors of type,
    class and attribute tests, joined by the descendant combinator. *)
Inductive simple : Type :=
| Tag (t : string)
| Class (c : string)
| AttrEq (k v : string)
| AttrContains (k v : string).

Definition compound := list simple.
Definition selector := list compound.

Definition matches_simple (e : element) (s : simple) : bool :=
  match s with
  | Tag t => String.eqb (tagName e) t
  | Class c => existsb (String.eqb c) (classList e)
  | AttrEq k v =>
      match getAttribute e k with
      | Some v' => String.eqb v' v
      | None => false
      end
  | AttrContains k v =>
      match getAttribute e k with
      | Some v' => truthy v && includes v' v
      | None => false
      end
  end.

Definition matches_compound (e : element) (c : compound) : bool :=
  forallb (matches_simple e) c.

(** The compounds left of the subject, nearest first, against the
    ancestors: each is matched by the nearest ancestor that fits. *)
Fixpoint matches_up (rsel : list compound) (anc : list element) : bool :=
  match rsel with
  | [] => true
  | c :: cs =>
      match anc with
      | [] => false
      | a :: anc' =>
          if matches_compound a c then matches_up cs anc'
          else matches_up rsel anc'
      end
  end.

Definition matches (sel : selector) (x : located) : bool :=
  match rev sel with
  | [] => false
  | c :: cs => matches_compound (self x) c && matches_up cs (ancestors x)
  end.

(** [x.querySelectorAll(sel)] and [x.querySelector(sel)] on an element. *)
Definition querySelectorAll (x : located) (sel : selector) : list located :=
  filter (matches sel) (descendants (ancestors x) (self x)).

Definition querySelector (x : located) (sel : selector) : option located :=
  hd_error (querySelectorAll x sel).

Record document : Type := mkDocument {
  location_href : string;
  documentElement : option element
}.

(** [document.querySelectorAll(sel)]. *)
Definition document_querySelectorAll (d : document) (sel : selector) : list located :=
  match documentElement d with
  | Some r => filter (matches sel) (mkLocated [] r :: descendants [] r)
  | None => []
  end.

Definition is_body (n : node) : bool :=
  match n with
  | Elem e => String.eqb (tagName e) "body" || String.eqb (tagName e) "frameset"
  | Text _ => false
  end.

(** [document.body]: the first [body] or [frameset] child of the [html]
    root, [None] (that is [null]) when there is none. *)
Definition body (d : document) : option element :=
  match documentElement d with
  | Some r =>
      if String.eqb (tagName r) "html" then
        match find is_body (childNodes r) with
        | Some (Elem b) => Some b
        | _ => None
        end
      else None
  | None => None
  end.

End Dom.

(** ** The extractor: [extractAmazonResultsWithFrameInfo] *)

Module Extractor.
Import Str Dom Parse Regex.

(** An [Error] object, reduced to its [message]. *)
Record exn : Type := mkExn { message : string }.

(** The selectors of the source, in the order of their appearance. *)
Definition sel_search_result : selector :=
  [[AttrEq "data-component-type" "s-search-result"]].
Definition sel_result_item : selector := [[Class "s-result-item"]].
Definition sel_col_inner : selector := [[Class "sg-col-inner"]].
Definition sel_h2_a_span : selector := [[Tag "h2"]; [Tag "a"]; [Tag "span"]].
Definition sel_text_normal : selector := [[Class "a-text-normal"]].
Definition sel_link_normal_span : selector := [[Class "a-link-normal"]; [Tag "span"]].
Definition sel_h2_a : selector := [[Tag "h2"]; [Tag "a"]].
Definition sel_link_normal : selector := [[Class "a-link-normal"]].
Definition sel_price_whole : selector := [[Class "a-price-whole"]].
Definition sel_price : selector := [[Class "a-price"]].
Definition sel_price_fraction : selector := [[Class "a-price-fraction"]].
Definition sel_coupon_unclipped : selector := [[Class "s-coupon-unclipped"]].
Definition sel_coupon_element : selector :=
  [[AttrEq "data-csa-c-element-type" "coupon"]].

Definition deliverySelectors : list selector :=
  [ [[AttrEq "data-test-id" "delivery-time"]];
    [[Class "a-color-base"; Class "a-text-bold"]];
    [[Class "a-color-success"]];
    [[Class "a-size-base"; Class "a-color-base"]];
    [[AttrEq "data-csa-c-type" "link"; AttrContains "data-csa-c-content" "delivery"]] ].

(** [a || b] on values that are an object or [null]. *)
Definition or_else {A : Type} (a b : option A) : option A :=
  match a with Some _ => a | None => b end.

(** [a || b] where [a] is a string or [undefined] and [b] a string. *)
Definition or_string (a : option string) (b : string) : string :=
  match a with
  | Some s => if truthy s then s else b
  | None => b
  end.

(** [x?.innerText]. *)
Definition innerText_of (x : option located) : option string :=
  match x with Some e => innerText (self e) | None => None end.

Section Item.
Variable item : located.

Definition titleElem : option located :=
  or_else (querySelector item sel_h2_a_span)
    (or_else (querySelector item sel_text_normal)
       (querySelector item sel_link_normal_span)).

Definition urlElem : option located :=
  or_else (querySelector item sel_h2_a) (querySelector item sel_link_normal).

Definition priceWhole : string :=
  or_string
    (option_map (fun t => replace "." "" (trim t))
       (innerText_of (querySelector item sel_price_whole)))
    (or_string (innerText_of (querySelector item sel_price)) "").

Definition priceFraction : string :=
  or_string (option_map trim (innerText_of (querySelector item sel_price_fraction))) "".

Definition priceStr : string :=
  if truthy priceWhole
  then "$" ++ priceWhole ++ (if truthy priceFraction then "." ++ priceFraction else "")
  else "No Price".

(** The price before any coupon; [-1] marks an item without a price. *)
Definition priceNum : number :=
  if String.eqb priceStr "No Price" then Fin (-1)
  else parseFloat (remove_all ","%char (replace "$" "" priceStr)).

(** The three delivery variables of the loop body. *)
Record delivery : Type := mkDelivery {
  d_text : string;
  d_today : bool;
  d_tomorrow : bool
}.

Definition delivery_none : delivery := mkDelivery "" false false.
Definition delivery_today : delivery := mkDelivery "Today" true false.
Definition delivery_tomorrow : delivery := mkDelivery "Tomorrow" false true.

(** The loop over [deliverySelectors]; a classified element ends it. *)
Fixpoint scan_delivery (sels : list selector) : delivery :=
  match sels with
  | [] => delivery_none
  | sel :: rest =>
      match querySelector item sel with
      | Some deliveryElem =>
          if truthy (textContent (self deliveryElem)) then
            let text := toLowerCase (textContent (self deliveryElem)) in
            if includes text "today" || includes text "same day"
               || (includes text "within" && includes text "hour")
            then delivery_today
            else if includes text "tomorrow" || includes text "next day"
            then delivery_tomorrow
            else scan_delivery rest
          else scan_delivery rest
      | None => scan_delivery rest
      end
  end.

Definition item_delivery : delivery :=
  let d := scan_delivery deliverySelectors in
  if negb (d_today d) && negb (d_tomorrow d) then
    let itemText := toLowerCase (textContent (self item)) in
    if includes itemText "get it today" || includes itemText "delivery today"
       || includes itemText "same-day delivery"
    then delivery_today
    else if includes itemText "get it tomorrow" || includes itemText "delivery tomorrow"
            || includes itemText "next-day delivery" || includes itemText "1-day delivery"
    then delivery_tomorrow
    else d
  else d.

Definition couponElem : option located :=
  or_else (querySelector item sel_coupon_unclipped)
    (querySelector item sel_coupon_element).

(** The price after the coupon: the pair [(finalPrice, finalPriceNum)]. *)
Definition final_price : string * number :=
  match couponElem with
  | Some c =>
      if Num.gtb priceNum (Fin 0) then
        match match_youPay (textContent (self item)) with
        | Some g =>
            let finalPriceNum := parseFloat g in
            ("$" ++ toFixed2 finalPriceNum, finalPriceNum)
        | None =>
            let couponText := textContent (self c) in
            match match_percent couponText with
            | Some g =>
                let percentOff := parseInt g in
                let discountAmount := Num.mul priceNum (Num.div percentOff (Fin 100)) in
                let finalPriceNum := Num.sub priceNum discountAmount in
                ("$" ++ toFixed2 finalPriceNum, finalPriceNum)
            | None =>
                match match_dollar couponText with
                | Some g =>
                    let dollarOff := parseFloat g in
                    let finalPriceNum := Num.max (Fin 0) (Num.sub priceNum dollarOff) in
                    ("$" ++ toFixed2 finalPriceNum, finalPriceNum)
                | None => (priceStr, priceNum)
                end
            end
        end
      else (priceStr, priceNum)
  | None => (priceStr, priceNum)
  end.

Definition finalPrice : string := fst final_price.
Definition finalPriceNum : number := snd final_price.

End Item.

(** An object pushed on [processedItems]. *)
Record entry : Type := mkEntry {
  title : option string;
  url : option string;
  price : string;
  entry_priceNum : number;
  hasCoupon : bool;
  deliveryText : string;
  isDeliveryToday : bool;
  isDeliveryTomorrow : bool
}.

(** One turn of the loop over [items]: the entry pushed, if any. *)
Definition process_item (item : located) : option entry :=
  match titleElem item, urlElem item with
  | Some t, Some u =>
      Some {| title := innerText (self t);
              url := href (self u);
              price := finalPrice item;
              entry_priceNum := finalPriceNum item;
              hasCoupon := match couponElem item with Some _ => true | None => false end;
              deliveryText := d_text (item_delivery item);
              isDeliveryToday := d_today (item_delivery item);
              isDeliveryTomorrow := d_tomorrow (item_delivery item) |}
  | _, _ => None
  end.

Fixpoint collect (items : list located) : list entry :=
  match items with
  | [] => []
  | item :: rest =>
      match process_item item with
      | Some e => e :: collect rest
      | None => collect rest
      end
  end.

(** [Array.prototype.sort] with a comparison function: a stable sort, here
    by insertion; a comparison that is [NaN] counts as zero. *)
Section Sort.
Context {A : Type} (compareFn : A -> A -> number).

Definition after (a b : A) : bool := Num.gtb (compareFn a b) (Fin 0).

Fixpoint insert (x : A) (l : list A) : list A :=
  match l with
  | [] => [x]
  | y :: l' => if after x y then y :: insert x l' else x :: l
  end.

Fixpoint sort (l : list A) : list A :=
  match l with
  | [] => []
  | x :: l' => insert x (sort l')
  end.

End Sort.

(** [(a, b) => a.priceNum - b.priceNum]. *)
Definition by_price (a b : entry) : number :=
  Num.sub (entry_priceNum a) (entry_priceNum b).

(** The three container strategies, the first that finds an element. *)
Definition find_items (d : document) : list located :=
  let items := document_querySelectorAll d sel_search_result in
  let items :=
    match items with [] => document_querySelectorAll d sel_result_item | _ => items end in
  match items with [] => document_querySelectorAll d sel_col_inner | _ => items end.

(** A quoted attribute value of the markup. *)
Definition q (s : string) : string := dq ++ s ++ dq.

Definition string_of_bool (b : bool) : string := if b then "true" else "false".

(** A value that may be [undefined], interpolated in a template. *)
Definition interpolate (s : option string) : string :=
  match s with Some v => v | None => "undefined" end.

(** The first template literal, up to the controls: the style sheet. *)
Definition html_style : string :=
  "
      <style>
        body { 
          background-color: #1e1e1e;
          color: #e0e0e0;
          min-width: 600px;
          width: 600px;
        }
        #filter-input {
          width: 100%;
          padding: 8px;
          margin-bottom: 10px;
          background-color: #2d2d2d;
          border: 1px solid #444;
          color: #e0e0e0;
          border-radius: 4px;
          box-sizing: border-box;
        }
        #filter-input:focus {
          outline: none;
          border-color: #89CFF0;
        }
        .filter-controls {
          margin-bottom: 10px;
          display: flex;
          gap: 10px;
          align-items: center;
        }
        .delivery-filter {
          background-color: #2d2d2d;
          border: 1px solid #444;
          color: #e0e0e0;
          padding: 5px 10px;
          border-radius: 4px;
          cursor: pointer;
        }
        .delivery-filter:hover {
          background-color: #3d3d3d;
        }
        .delivery-filter.active {
          background-color: #4CAF50;
          border-color: #4CAF50;
        }
        table { 
          border-collapse: collapse; 
          width: 100%;
          background-color: #1e1e1e;
        }
        th, td { 
          padding: 6px 8px; 
          text-align: left; 
          border-bottom: 1px solid #333; 
        }
        th { 
          background-color: #2d2d2d;
          color: #e0e0e0;
        }
        tr:hover { 
          background-color: #2d2d2d; 
        }
        .hidden {
          display: none;
        }
        a {
          color: #89CFF0;
          text-decoration: none;
        }
        a:hover {
          text-decoration: underline;
        }
        .price-col { 
          text-align: right; 
          width: 80px;
        }
        .delivery-col {
          text-align: center;
          width: 70px;
          font-size: 12px;
        }
        .coupon-indicator {
          display: inline-block;
          width: 12px;
          height: 12px;
          background-color: #4CAF50;
          margin-right: 8px;
          vertical-align: middle;
          border-radius: 2px;
        }
        .coupon-price {
          color: #4CAF50;
          font-weight: bold;
        }
      </style>
      ".

(** The rest of the first template literal: the filter input, the three
    buttons and the opening of the table. *)
Definition html_controls : string :=
  "<input type=" ++ q "text" ++ " id=" ++ q "filter-input" ++ " placeholder="
  ++ q "Filter products..." ++ ">
      <div class=" ++ q "filter-controls"
  ++ ">
        <button id=" ++ q "delivery-today-filter" ++ " class="
  ++ q "delivery-filter" ++ ">Del. Today</button>
        <button id="
  ++ q "delivery-tomorrow-filter" ++ " class=" ++ q "delivery-filter"
  ++ ">Del. Tomorrow</button>
        <button id=" ++ q "clear-filters"
  ++ " class=" ++ q "delivery-filter"
  ++ ">Clear Filters</button>
      </div>
      <table>
        <thead>
          <tr>
            <th>Product</th>
            <th class="
  ++ q "delivery-col" ++ ">Delivery</th>
            <th class="
  ++ q "price-col"
  ++ ">Price</th>
          </tr>
        </thead>
        <tbody id="
  ++ q "product-list" ++ ">
    ".

Definition html_head : string := html_style ++ html_controls.

(** The template literal of one table row. *)
Definition html_row (item : entry) : string :=
  "
        <tr class=" ++ q "product-row"
  ++ " data-delivery-today=" ++ q (string_of_bool (isDeliveryToday item))
  ++ " data-delivery-tomorrow=" ++ q (string_of_bool (isDeliveryTomorrow item)) ++ ">
          <td>"
  ++ (if hasCoupon item
      then "<span class=" ++ q "coupon-indicator" ++ " title=" ++ q "Coupon Available" ++ "></span>"
      else "")
  ++ "<a href=" ++ q (interpolate (url item)) ++ " target=" ++ q "_blank" ++ ">"
  ++ interpolate (title item) ++ "</a></td>
          <td class=" ++ q "delivery-col" ++ " style=" ++ q "color: #4CAF50;" ++ ">"
  ++ (if truthy (deliveryText item) then deliveryText item else "-") ++ "</td>
          <td class=" ++ q ("price-col " ++ (if hasCoupon item then "coupon-price" else "")) ++ ">
            "
  ++ price item ++ "
          </td>
        </tr>".

Fixpoint html_rows (items : list entry) : string :=
  match items with
  | [] => EmptyString
  | item :: rest => html_row item ++ html_rows rest
  end.

(** The value the function returns. *)
Record result : Type := mkResult { result_url : string; html : string }.

(** The message of the [TypeError] Chrome raises for [null.innerHTML]. *)
Definition null_innerHTML : exn :=
  mkExn "Cannot read properties of null (reading 'innerHTML')".

(** [document.body.innerHTML], read for the debug line of the console. *)
Definition body_innerHTML (d : document) : sum exn unit :=
  match body d with
  | Some _ => ret tt
  | None => raise null_innerHTML
  end.

(** The [try] block. *)
Definition extract_try (d : document) : sum exn result :=
  let url := location_href d in
  let items := find_items d in
  body_innerHTML d ;;
  let processedItems := sort by_price (collect items) in
  ret (mkResult url (html_head ++ html_rows processedItems ++ "</tbody></table>")).

(** The [catch] clause.  The calls of [console] in both blocks leave no
    trace in the returned value and are not modelled. *)
Definition extract_catch (d : document) (err : exn) : sum exn result :=
  ret (mkResult (location_href d) ("Error extracting results: " ++ message err)).

Definition extractAmazonResultsWithFrameInfo (d : document) : sum exn result :=
  catch (extract_try d) (extract_catch d).

End Extractor.

(** ** The popup: filter controls and [applyFilters] *)

Module Popup.
Import Str Dom.

(** A [DOMTokenList]: an ordered set of tokens. *)
Definition contains (c : string) (l : list string) : bool :=
  existsb (String.eqb c) l.

Definition add (c : string) (l : list string) : list string :=
  if contains c l then l else l ++ [c].

Definition remove (c : string) (l : list string) : list string :=
  filter (fun x => negb (String.eqb x c)) l.

Definition toggle (c : string) (l : list string) : list string :=
  if contains c l then remove c l else add c l.

(** A rendered row: the element as it was parsed, read only, and its
    class list, which [applyFilters] updates. *)
Record row : Type := mkRow {
  row_elem : located;
  row_classList : list string
}.

(** What the handlers look up in the popup document: the text input (its
    [value]), the two toggle buttons (their class lists), each [None]
    when [getElementById] finds nothing, and the elements of class
    [product-row] in document order. *)
Record popup : Type := mkPopup {
  filterInput : option string;
  deliveryTodayFilter : option (list string);
  deliveryTomorrowFilter : option (list string);
  rows : list row
}.

Definition textFilter (p : popup) : string :=
  match filterInput p with Some v => toLowerCase v | None => "" end.

Definition deliveryTodayActive (p : popup) : bool :=
  match deliveryTodayFilter p with Some l => contains "active" l | None => false end.

Definition deliveryTomorrowActive (p : popup) : bool :=
  match deliveryTomorrowFilter p with Some l => contains "active" l | None => false end.

Definition row_title (r : row) : string :=
  match querySelector (row_elem r) [[Tag "a"]] with
  | Some a => toLowerCase (textContent (self a))
  | None => ""
  end.

(** [row.getAttribute(k) === 'true']. *)
Definition attr_is_true (r : row) (k : string) : bool :=
  match getAttribute (self (row_elem r)) k with
  | Some v => String.eqb v "true"
  | None => false
  end.

(** The value of [showRow] at the end of the callback of [forEach]. *)
Definition showRow (textFilter : string) (todayActive tomorrowActive : bool) (r : row) : bool :=
  let title := row_title r in
  let isDeliveryToday := attr_is_true r "data-delivery-today" in
  let isDeliveryTomorrow := attr_is_true r "data-delivery-tomorrow" in
  let showRow := true in
  let showRow :=
    if truthy textFilter && negb (includes title textFilter) then false else showRow in
  let showRow :=
    if todayActive || tomorrowActive then
      let matchesDeliveryFilter := false in
      let matchesDeliveryFilter :=
        if todayActive && isDeliveryToday then true else matchesDeliveryFilter in
      let matchesDeliveryFilter :=
        if tomorrowActive && isDeliveryTomorrow then true else matchesDeliveryFilter in
      if negb matchesDeliveryFilter then false else showRow
    else showRow in
  showRow.

Definition filter_row (textFilter : string) (todayActive tomorrowActive : bool) (r : row) : row :=
  if showRow textFilter todayActive tomorrowActive r
  then mkRow (row_elem r) (remove "hidden" (row_classList r))
  else mkRow (row_elem r) (add "hidden" (row_classList r)).

Definition applyFilters (p : popup) : popup :=
  mkPopup (filterInput p) (deliveryTodayFilter p) (deliveryTomorrowFilter p)
    (map (filter_row (textFilter p) (deliveryTodayActive p) (deliveryTomorrowActive p))
       (rows p)).

(** The [input] listener; [target] is the [id] of the event's target. *)
Definition on_input (target : string) (p : popup) : popup :=
  if String.eqb target "filter-input" then applyFilters p else p.

(** The [click] listener: three tests on the target's [id] in a row.  Ids
    are taken to be unique, so the target is the element that
    [getElementById] finds. *)
Definition on_click (target : string) (p : popup) : popup :=
  let p :=
    if String.eqb target "delivery-today-filter" then
      applyFilters
        (mkPopup (filterInput p) (option_map (toggle "active") (deliveryTodayFilter p))
           (deliveryTomorrowFilter p) (rows p))
    else p in
  let p :=
    if String.eqb target "delivery-tomorrow-filter" then
      applyFilters
        (mkPopup (filterInput p) (deliveryTodayFilter p)
           (option_map (toggle "active") (deliveryTomorrowFilter p)) (rows p))
    else p in
  if String.eqb target "clear-filters" then
    applyFilters
      (mkPopup (option_map (fun _ => "") (filterInput p))
         (option_map (remove "active") (deliveryTodayFilter p))
         (option_map (remove "active") (deliveryTomorrowFilter p)) (rows p))
  else p.

(** A row is visible when its class list lacks [hidden]. *)
Definition visible (r : row) : bool := negb (contains "hidden" (row_classList r)).

End Popup.

(** ** The controller: [handleExtract] *)

Module Controller.
Import Str Regex.

Record tab : Type := mkTab { tab_id : Z; tab_url : option string }.

(** A frame's entry in the array handed to the callback of
    [executeScript]; [None] is a [result] that is [null]. *)
Record frame : Type := mkFrame { frame_result : option Extractor.result }.

(** What the browser answers: whether [#results] exists, how the promise
    of [chrome.tabs.query] settles, and what the callback of
    [executeScript] finds in [chrome.runtime.lastError] and in [results]. *)
Record world : Type := mkWorld {
  has_resultsDiv : bool;
  tabs_query : sum Extractor.exn (list tab);
  lastError : option string;
  results : option (list frame)
}.

(** A write to the display area. *)
Inductive display : Type :=
| InnerText (s : string)
| InnerHTML (s : string).

(** The observable effects: the last write to [#results], if any, and the
    tabs for which [chrome.scripting.executeScript] was called.  Console
    output and the advisory timer have no part in them. *)
Record effects : Type := mkEffects {
  resultsDiv : option display;
  injected : list Z
}.

Definition nothing : effects := mkEffects None [].
Definition shows (d : display) : effects := mkEffects (Some d) [].

(** [result && result.html && result.html !== '<ul></ul>']. *)
Definition usable (f : frame) : bool :=
  match frame_result f with
  | Some r => truthy (Extractor.html r) && negb (String.eqb (Extractor.html r) "<ul></ul>")
  | None => false
  end.

(** The loop over the frames: [Some output] when [found]. *)
Fixpoint first_usable (frames : list frame) : option string :=
  match frames with
  | [] => None
  | f :: rest =>
      if usable f then option_map Extractor.html (frame_result f)
      else first_usable rest
  end.

(** The callback passed to [executeScript]. *)
Definition on_results (w : world) : display :=
  match lastError w with
  | Some m => InnerText ("Error: " ++ m)
  | None =>
      match results w with
      | None | Some [] => InnerText "No results found or script failed."
      | Some frames =>
          match first_usable frames with
          | Some output => InnerHTML output
          | None => InnerHTML "No results found."
          end
      end
  end.

Definition handleExtract (w : world) : effects :=
  if negb (has_resultsDiv w) then nothing
  else
    match tabs_query w with
    | inl e => shows (InnerText ("Exception: " ++ Extractor.message e))
    | inr [] => shows (InnerText "No active tab found.")
    | inr (tab :: _) =>
        match tab_url tab with
        | None => shows (InnerText "Tab has no URL.")
        | Some u =>
            if negb (truthy u) then shows (InnerText "Tab has no URL.")
            else if negb (amazon_url u)
            then shows (InnerText "Please navigate to an Amazon search results page.")
            else mkEffects (Some (on_results w)) [tab_id tab]
        end
    end.

End Controller.

(** ** Properties the statements below speak of *)

Module Props.
Import Str Dom Extractor.

(** [a <= b] holds for each neighbouring pair of the list. *)
Fixpoint ascending (l : list number) : bool :=
  match l with
  | [] => true
  | a :: l' =>
      match l' with
      | [] => true
      | b :: _ => Num.leb a b && ascending l'
      end
  end.

Definition price_le (a b : entry) : Prop :=
  Num.leb (entry_priceNum a) (entry_priceNum b) = true.

(** An entry without a price carries the sentinel [-1]. *)
Definition unpriced (e : entry) : bool := Num.eqb (entry_priceNum e) (Fin (-1)).

(** The unpriced entries form a prefix of the list. *)
Fixpoint unpriced_first (l : list entry) : bool :=
  match l with
  | [] => true
  | e :: l' =>
      if unpriced e then unpriced_first l'
      else forallb (fun x => negb (unpriced x)) l'
  end.

(** The entries behind the rows of the table, in the order of the rows. *)
Definition rendered (d : document) : list entry :=
  sort by_price (collect (find_items d)).

Definition not_nan (e : entry) : Prop := entry_priceNum e <> NaN.

(** Both elements an entry is built from were found. *)
Definition has_title_and_link (item : located) : bool :=
  match titleElem item, urlElem item with
  | Some _, Some _ => true
  | _, _ => false
  end.

(** The text of the first link of a row, empty when the row has none. *)
Definition link_text (r : Popup.row) : string :=
  match querySelector (Popup.row_elem r) [[Tag "a"]] with
  | Some a => textContent (self a)
  | None => ""
  end.

(** The text typed in the filter, empty when there is no input element. *)
Definition filter_value (p : Popup.popup) : string :=
  match Popup.filterInput p with Some v => v | None => "" end.

(** The tab states that end [handleExtract] before the injection, each
    with the text it leaves in the display area. *)
Inductive rejection : list Controller.tab -> string -> Prop :=
| no_tab : rejection [] "No active tab found."
| no_url (t : Controller.tab) (rest : list Controller.tab) :
    Controller.tab_url t = None \/ Controller.tab_url t = Some "" ->
    rejection (t :: rest) "Tab has no URL."
| off_site (t : Controller.tab) (rest : list Controller.tab) (u : string) :
    Controller.tab_url t = Some u -> u <> "" -> Regex.amazon_url u = false ->
    rejection (t :: rest) "Please navigate to an Amazon search results page.".

End Props.

(** ** Sample pages *)

Module Fixtures.
Import Str Dom Extractor Popup.

Definition leaf (tag : string) (a : attributes) (text : string) : element :=
  mkElement tag a (Some text) None [Text text].

Definition box (tag : string) (a : attributes) (kids : list element) : element :=
  mkElement tag a (Some "") None (map Elem kids).

Definition link (u : string) (kids : list element) : element :=
  mkElement "a" [] (Some "") (Some u) (map Elem kids).

Definition heading (name : string) : element :=
  box "h2" [] [link ("https://www.amazon.com/dp/" ++ name) [leaf "span" [] name]].

Definition price_parts (whole frac : string) : element :=
  box "span" [("class", "a-price")]
    [leaf "span" [("class", "a-price-whole")] whole;
     leaf "span" [("class", "a-price-fraction")] frac].

Definition coupon (text : string) : element :=
  leaf "span" [("class", "s-coupon-unclipped")] text.

(** A search result with a title, a link and the given further parts. *)
Definition product (name : string) (parts : list element) : element :=
  box "div" [("data-component-type", "s-search-result")] (heading name :: parts).

Definition page (items : list element) : document :=
  mkDocument "https://www.amazon.com/s?k=lamp"
    (Some (box "html" [] [box "head" [] []; box "body" [] items])).

Definition item_of (e : element) : located := mkLocated [] e.

(** The first product container the extractor finds in a document. *)
Definition first_item (d : document) : located :=
  hd (item_of (box "div" [] [])) (find_items d).

(** The coupon element of an item that has one. *)
Definition coupon_of (item : located) : located :=
  match couponElem item with Some c => c | None => item end.

(** $25.00, a coupon reading 10% off, and a You pay line. *)
Definition lamp : element :=
  product "Lamp" [price_parts "25." "00"; coupon "Save 10% off"; leaf "span" [] "You pay $19.99"].

(** $10.00 with a coupon, and a You pay line above the price. *)
Definition cable : element :=
  product "Cable" [price_parts "10." "00"; coupon "Coupon"; leaf "span" [] "You pay $50"].

(** A price text of Infinity with a 10% coupon. *)
Definition boundless : element :=
  product "Boundless" [price_parts "Infinity" ""; coupon "Save 10%"].

(** $40.00 with 20% off; $10.00 with $15 off; $10.00 with 250% off. *)
Definition desk : element := product "Desk" [price_parts "40." "00"; coupon "Save 20%"].
Definition pen : element := product "Pen" [price_parts "10." "00"; coupon "Save $15"].
Definition kite : element := product "Kite" [price_parts "10." "00"; coupon "Save 250%"].

(** A delivery line, and a product that carries one. *)
Definition delivery_line (text : string) : element :=
  leaf "span" [("class", "a-color-base a-text-bold")] text.
Definition fan : element :=
  product "Fan" [price_parts "1,299." "50"; delivery_line "Tomorrow, Nov 4"].
Definition soap : element :=
  product "Soap" [price_parts "4." "25"; leaf "div" [] "FREE Same-Day Delivery"].

(** No price at all. *)
Definition ghost : element := product "Ghost" [].

(** Plain prices. *)
Definition plain (name whole frac : string) : element :=
  product name [price_parts whole frac].

(** Only the combined price element, whose text starts with the currency sign. *)
Definition combined (name text : string) : element :=
  product name [leaf "span" [("class", "a-price")] text].

(** A title without a link, and a link without a title. *)
Definition untitled : element :=
  box "div" [("data-component-type", "s-search-result")]
    [mkElement "a" [("class", "a-link-normal")] (Some "") (Some "https://www.amazon.com/dp/x") [];
     price_parts "5." "00"].
Definition unlinked : element :=
  box "div" [("data-component-type", "s-search-result")]
    [leaf "span" [("class", "a-text-normal")] "Loose title"; price_parts "5." "00"].

(** A document without a body (an SVG image shown in a frame). *)
Definition svg_frame : document :=
  mkDocument "https://www.amazon.com/logo.svg" (Some (box "svg" [] [])).

(** Rows of the table as the popup holds them. *)
Definition table_row (name today tomorrow : string) (classes : list string) : row :=
  mkRow
    (item_of
       (box "tr" [("class", "product-row"); ("data-delivery-today", today);
                  ("data-delivery-tomorrow", tomorrow)]
          [box "td" [] [mkElement "a" [] (Some name) (Some "https://www.amazon.com/dp/x") [Text name]]]))
    classes.

Definition row_today : row := table_row "Desk Lamp" "true" "false" ["product-row"].
Definition row_tomorrow : row := table_row "USB Cable" "false" "true" ["product-row"; "hidden"].
Definition row_later : row := table_row "Kite" "false" "false" ["product-row"].

Definition sample_popup (filter : string) (today tomorrow : list string) : popup :=
  mkPopup (Some filter) (Some today) (Some tomorrow) [row_today; row_tomorrow; row_later].

End Fixtures.

(** ** Notions for the properties of the remaining code *)

Module Shapes.
Import Str.

(** Every character of the string is a decimal digit. *)
Fixpoint all_digits (s : string) : bool :=
  match s with
  | EmptyString => true
  | String c r => is_digit c && all_digits r
  end.

End Shapes.

(** ** Sequences of user events in the popup *)

Module Traces.
Import Str Popup.

(** What the user does: changing the text of the filter input, or
    clicking on the element with a given [id]. *)
Inductive event : Type :=
| Typed (value : string)
| Clicked (target : string).

(** An edit of [#filter-input]: the browser stores the new [value] and
    dispatches [input] with that element as target.  Without the element
    there is nothing to edit. *)
Definition type_text (v : string) (p : popup) : popup :=
  match filterInput p with
  | Some _ =>
      on_input "filter-input"
        (mkPopup (Some v) (deliveryTodayFilter p) (deliveryTomorrowFilter p) (rows p))
  | None => p
  end.

Definition step (e : event) (p : popup) : popup :=
  match e with
  | Typed v => type_text v p
  | Clicked t => on_click t p
  end.

Fixpoint run (es : list event) (p : popup) : popup :=
  match es with
  | [] => p
  | e :: es' => run es' (step e p)
  end.

(** The rows show what the controls say: a row lacks the class [hidden]
    exactly when it passes the filters as they stand. *)
Definition in_sync (p : popup) : Prop :=
  forall r, In r (rows p) ->
            visible r =
              showRow (textFilter p) (deliveryTodayActive p) (deliveryTomorrowActive p) r.

(** The classes of a row other than [hidden]. *)
Definition other_classes (r : row) : list string := remove "hidden" (row_classList r).

End Traces.

(** ** Further sample pages *)

Module Samples.
Import Str Dom Extractor Popup Fixtures.

(** A delivery line that says tomorrow inside an item whose text says
    that it can be had today. *)
Definition mixed : element :=
  product "Mixed"
    [price_parts "8." "00"; delivery_line "Arrives tomorrow";
     leaf "div" [] "Or get it today with pickup"].

(** Two products at the same price around a cheaper one. *)
Definition tie_page : document :=
  page [plain "First" "5." "00"; plain "Cheap" "2." "00"; plain "Second" "5." "00"].

(** $1,500.00 with a 10% coupon and a final price of $1,350.00. *)
Definition sofa : element :=
  product "Sofa"
    [price_parts "1,500." "00"; coupon "Save 10%"; leaf "span" [] "You pay $1,350.00"].

(** $1.00 with a 10% coupon and a final price of 85 cents. *)
Definition mint : element :=
  product "Mint" [price_parts "1." "00"; coupon "Save 10%"; leaf "span" [] "You pay $.85"].

End Samples.

(** ** The row filter over any lower-casing

    [String.prototype.toLowerCase] lowers every cased character, not only
    the ASCII letters of [Str.toLowerCase], and it does so with regard to
    the context.  The filter is given here once more with the lower-casing
    as a parameter of which nothing is assumed; [Popup] is its instance
    at [Str.toLowerCase]. *)

Module FilterWith.
Import Str Dom Popup.

Section Lower.
Variable lower : string -> string.

Definition textFilter (p : popup) : string :=
  match filterInput p with Some v => lower v | None => "" end.

Definition row_title (r : row) : string :=
  match querySelector (row_elem r) [[Tag "a"]] with
  | Some a => lower (textContent (self a))
  | None => ""
  end.

(** The value of [showRow] at the end of the callback of [forEach]. *)
Definition showRow (textFilter : string) (todayActive tomorrowActive : bool) (r : row) : bool :=
  let title := row_title r in
  let isDeliveryToday := attr_is_true r "data-delivery-today" in
  let isDeliveryTomorrow := attr_is_true r "data-delivery-tomorrow" in
  let showRow := true in
  let showRow :=
    if truthy textFilter && negb (includes title textFilter) then false else showRow in
  let showRow :=
    if todayActive || tomorrowActive then
      let matchesDeliveryFilter := false in
      let matchesDeliveryFilter :=
        if todayActive && isDeliveryToday then true else matchesDeliveryFilter in
      let matchesDeliveryFilter :=
        if tomorrowActive && isDeliveryTomorrow then true else matchesDeliveryFilter in
      if negb matchesDeliveryFilter then false else showRow
    else showRow in
  showRow.

Definition filter_row (textFilter : string) (todayActive tomorrowActive : bool) (r : row) : row :=
  if showRow textFilter todayActive tomorrowActive r
  then mkRow (row_elem r) (remove "hidden" (row_classList r))
  else mkRow (row_elem r) (add "hidden" (row_classList r)).

Definition applyFilters (p : popup) : popup :=
  mkPopup (filterInput p) (deliveryTodayFilter p) (deliveryTomorrowFilter p)
    (map (filter_row (textFilter p) (deliveryTodayActive p) (deliveryTomorrowActive p))
       (rows p)).

End Lower.

End FilterWith.

(** * Properties *)

(** ** Sample runs of the parsers and patterns *)

Example parseFloat_samples :
  Parse.parseFloat "19.99" = Fin (1999 # 100) /\
  Parse.parseFloat "  12.50 each" = Fin (1250 # 100) /\
  Parse.parseFloat "12.e3" = Fin 12000 /\
  Parse.parseFloat ".5" = Fin (5 # 10) /\
  Parse.parseFloat "-3" = Fin (-3) /\
  Parse.parseFloat "$12.99" = NaN /\
  Parse.parseFloat "." = NaN /\
  Parse.parseFloat "Infinity" = PInf.
Proof. repeat split. Qed.

Example parseInt_samples :
  Parse.parseInt "20" = Fin 20 /\ Parse.parseInt "007" = Fin 7 /\ Parse.parseInt "x" = NaN.
Proof. repeat split. Qed.

Example toFixed2_samples :
  Parse.toFixed2 (Fin 32) = "32.00" /\
  Parse.toFixed2 (Fin (1999 # 100)) = "19.99" /\
  Parse.toFixed2 (Fin (2245 # 1000)) = "2.25" /\
  Parse.toFixed2 (Fin (5 # 1000)) = "0.01" /\
  Parse.toFixed2 (Fin (-15)) = "-15.00" /\
  Parse.toFixed2 (Fin (- (1 # 1000))) = "-0.00" /\
  Parse.toFixed2 NaN = "NaN".
Proof. repeat split. Qed.

Example match_samples :
  Regex.match_youPay "Save 10% off. you PAY $19.99 now" = Some "19.99" /\
  Regex.match_youPay "You pay $7." = Some "7." /\
  Regex.match_youPay "You pay $1,299.00" = Some "1" /\
  Regex.match_youPay "You pay $.50" = None /\
  Regex.match_percent "Save 5 or 10% today" = Some "10" /\
  Regex.match_percent "100 %" = None /\
  Regex.match_dollar "Save $15 with coupon" = Some "15" /\
  Regex.match_dollar "Save $2.505" = Some "2.50" /\
  Regex.match_dollar "Save $2.5" = Some "2".
Proof. repeat split. Qed.

Example string_samples :
  Str.trim "  12. " = "12." /\
  Str.replace "." "" "1.299." = "1299." /\
  Str.remove_all ","%char "1,299,000" = "1299000" /\
  Str.tokens " a-price  a-text-bold " = ["a-price"; "a-text-bold"] /\
  Str.includes "free delivery tomorrow" "tomorrow" = true /\
  Str.toLowerCase "Del. Today" = "del. today".
Proof. repeat split. Qed.

(** ** Strings and patterns *)

Section StringFacts.
Import Str Regex Parse.

Lemma append_assoc (a b c : string) : (a ++ b) ++ c = a ++ (b ++ c).
Proof. induction a as [|x a IH]; simpl; [reflexivity | rewrite IH; reflexivity]. Qed.

Lemma is_digit_not_space (c : ascii) : is_digit c = true -> is_space c = false.
Proof.
  unfold is_digit, is_space. intros H.
  apply andb_true_iff in H as [H1 H2].
  apply Nat.leb_le in H1. apply Nat.leb_le in H2.
  apply orb_false_iff. split.
  - apply andb_false_iff. right. apply Nat.leb_gt. lia.
  - apply Nat.eqb_neq. lia.
Qed.

Lemma span_head (p : ascii -> bool) (s : string) (c : ascii) (a b : string) :
  span p s = (String c a, b) -> p c = true /\ exists r, s = String c r.
Proof.
  destruct s as [|c' r]; simpl; [discriminate|].
  destruct (p c') eqn:E.
  - destruct (span p r). intros [= <- _ _]. eauto.
  - discriminate.
Qed.

Lemma span_digit_head (c : ascii) (r : string) :
  is_digit c = true ->
  exists a b, span is_digit (String c r) = (String c a, b).
Proof.
  intros H. simpl. rewrite H. destruct (span is_digit r). eauto.
Qed.

Lemma search_some {A : Type} (f : string -> option A) (s : string) (m : A) :
  search f s = Some m -> exists t, f t = Some m.
Proof.
  induction s as [|c r IH]; simpl.
  - destruct (f "") eqn:E; [intros [= <-]; eauto | discriminate].
  - destruct (f (String c r)) eqn:E; [intros [= <-]; eauto | exact IH].
Qed.

(** [search] returns the match at the first position that has one. *)
Lemma search_first {A : Type} (f : string -> option A) (pre t : string) (m : A) :
  (forall a b, pre = a ++ b -> b <> "" -> f (b ++ t) = None) ->
  f t = Some m ->
  search f (pre ++ t) = Some m.
Proof.
  induction pre as [|c r IH]; intros Hpre Ht; simpl.
  - destruct t; simpl; rewrite Ht; reflexivity.
  - pose proof (Hpre "" (String c r) eq_refl) as H0. simpl in H0.
    rewrite H0 by discriminate.
    apply IH; [|exact Ht].
    intros a b -> Hb. apply (Hpre (String c a) b); [reflexivity | exact Hb].
Qed.

Lemma search_none {A : Type} (f : string -> option A) (pre t : string) :
  search f (pre ++ t) = None -> f t = None.
Proof.
  induction pre as [|c r IH]; simpl.
  - destruct t; simpl; destruct (f _); congruence.
  - destruct (f (String c (r ++ t))); [discriminate | exact IH].
Qed.

Lemma percent_at_head (s g : string) :
  percent_at s = Some g -> exists c r, g = String c r /\ is_digit c = true.
Proof.
  unfold percent_at. destruct (span is_digit s) as [ds r] eqn:E.
  destruct ds as [|c ds']; simpl; [discriminate|].
  apply span_head in E as [Hc _].
  destruct r as [|x r']; [discriminate|].
  destruct (Ascii.eqb_spec x "%"%char);
    [|destruct x as [[] [] [] [] [] [] [] []]; try discriminate; congruence].
  subst. intros [= <-]. eauto.
Qed.

Lemma dollar_at_head (s g : string) :
  dollar_at s = Some g -> exists c r, g = String c r /\ is_digit c = true.
Proof.
  unfold dollar_at. destruct s as [|x s']; [discriminate|].
  destruct (Ascii.eqb_spec x "$"%char) as [->|Hx];
    [|destruct x as [[] [] [] [] [] [] [] []]; try discriminate; congruence].
  destruct (span is_digit s') as [ds r] eqn:E.
  destruct ds as [|c ds']; simpl; [discriminate|].
  apply span_head in E as [Hc _].
  simpl. intros H.
  assert (exists t, g = String c t) as [t ->]; [|eauto].
  destruct r as [|y r']; [inversion H; eauto|].
  destruct y as [[] [] [] [] [] [] [] []]; try (inversion H; eauto; fail).
  destruct r' as [|a [|b r'']]; try (inversion H; eauto; fail).
  destruct (is_digit a && is_digit b); inversion H; simpl; eauto.
Qed.

Lemma digits_to_Z_nonneg (s : string) (acc : Z) :
  (0 <= acc)%Z -> (0 <= digits_to_Z s acc)%Z.
Proof.
  revert acc. induction s as [|c r IH]; cbn [digits_to_Z]; intros acc H; [exact H|].
  apply IH. unfold digit_val. lia.
Qed.

(** On a string that starts with a digit [parseInt] is a non-negative integer. *)
Lemma parseInt_digit_head (c : ascii) (r : string) :
  is_digit c = true ->
  exists z, (0 <= z)%Z /\ parseInt (String c r) = Fin (inject_Z z).
Proof.
  intros H. unfold parseInt. simpl trimStart.
  rewrite (is_digit_not_space c H).
  destruct (span_digit_head c r H) as (a & b & E).
  destruct c as [[] [] [] [] [] [] [] []]; try discriminate H;
    rewrite E; simpl truthy; cbv iota;
    (eexists; split; [|reflexivity]); apply digits_to_Z_nonneg; lia.
Qed.

Lemma decimal_nonneg (ip fp : string) (e : Z) : 0 <= decimal ip fp e.
Proof.
  unfold decimal.
  pose proof (digits_to_Z_nonneg (ip ++ fp) 0 (Z.le_refl 0)) as Hm.
  destruct (0 <=? e - Z.of_nat (String.length fp))%Z eqn:E.
  - apply Z.leb_le in E. unfold Qle. simpl.
    rewrite Z.mul_1_r. apply Z.mul_nonneg_nonneg; [exact Hm|].
    apply Z.pow_nonneg. lia.
  - unfold Qle. simpl. lia.
Qed.

(** On a string that starts with a digit [parseFloat] is finite and
    non-negative. *)
Lemma parseFloat_digit_head (c : ascii) (r : string) :
  is_digit c = true ->
  exists q, 0 <= q /\ parseFloat (String c r) = Fin q.
Proof.
  intros H. unfold parseFloat. simpl trimStart.
  rewrite (is_digit_not_space c H).
  destruct (span_digit_head c r H) as (a & b & E).
  destruct c as [[] [] [] [] [] [] [] []]; try discriminate H;
    cbn [startsWith Ascii.eqb Bool.eqb andb]; rewrite E;
    (destruct (match b with
               | String "."%char r1 => span is_digit r1
               | _ => (EmptyString, b)
               end) as [fp r']);
    cbn [truthy orb Num.neg];
    (eexists; split; [|reflexivity]); apply decimal_nonneg.
Qed.

End StringFacts.

(** ** Numbers *)

Section NumberFacts.

Lemma leb_fin (x y : Q) : Num.leb (Fin x) (Fin y) = true <-> x <= y.
Proof.
  simpl. rewrite Qle_alt. destruct (Qcompare x y); split; congruence.
Qed.

Lemma ltb_fin (x y : Q) : Num.ltb (Fin x) (Fin y) = true <-> x < y.
Proof.
  simpl. rewrite Qlt_alt. destruct (Qcompare x y); split; congruence.
Qed.

Lemma sgn_pos (q : Q) : 0 < q -> Num.sgn q = Gt.
Proof. intros H. unfold Num.sgn. apply Qgt_alt. exact H. Qed.

(** [b - b * (k / 100) <= b] for a positive price and a non-negative rate. *)
Lemma percent_le (b k : Q) :
  0 < b -> 0 <= k ->
  Num.leb (Num.sub (Fin b) (Num.mul (Fin b) (Num.div (Fin k) (Fin 100)))) (Fin b) = true.
Proof.
  intros Hb Hk. unfold Num.div. rewrite (sgn_pos 100) by reflexivity.
  cbn [Num.mul Num.sub]. apply leb_fin.
  assert (0 <= b * (k / 100)).
  { apply Qmult_le_0_compat; [lra|]. apply Qle_shift_div_l; [reflexivity | lra]. }
  lra.
Qed.

(** [b - b * (k / 100) < 0] as soon as the rate exceeds 100. *)
Lemma percent_negative (b k : Q) :
  0 < b -> 100 < k ->
  Num.ltb (Num.sub (Fin b) (Num.mul (Fin b) (Num.div (Fin k) (Fin 100)))) (Fin 0) = true.
Proof.
  intros Hb Hk. unfold Num.div. rewrite (sgn_pos 100) by reflexivity.
  cbn [Num.mul Num.sub]. apply ltb_fin.
  assert (1 < k / 100) by (apply Qlt_shift_div_l; [reflexivity | lra]).
  assert (0 < b * (k / 100 - 1)) by (apply Qmult_lt_0_compat; lra).
  lra.
Qed.

Lemma max_zero_fin (x : Q) :
  Num.max (Fin 0) (Fin x) = Fin (if Num.ltb (Fin 0) (Fin x) then x else 0).
Proof. unfold Num.max. destruct (Num.ltb (Fin 0) (Fin x)); reflexivity. Qed.

(** [0 <= Math.max(0, b - d) <= b] for a positive price and a
    non-negative amount. *)
Lemma dollar_bounds (b d : Q) :
  0 < b -> 0 <= d ->
  Num.leb (Num.max (Fin 0) (Num.sub (Fin b) (Fin d))) (Fin b) = true /\
  Num.leb (Fin 0) (Num.max (Fin 0) (Num.sub (Fin b) (Fin d))) = true.
Proof.
  intros Hb Hd. cbn [Num.sub]. rewrite max_zero_fin.
  destruct (Num.ltb (Fin 0) (Fin (b - d))) eqn:E.
  - apply ltb_fin in E. split; apply leb_fin; lra.
  - split; apply leb_fin; lra.
Qed.

End NumberFacts.

(** ** The coupon policy *)

Section Coupon.
Import Str Dom Parse Regex Extractor Props Fixtures.

(** The three branches of the coupon computation, in their order: the
    final price of an item with a coupon element and a positive price. *)
Lemma final_price_branches (item c : located) :
  couponElem item = Some c ->
  Num.gtb (priceNum item) (Fin 0) = true ->
  finalPriceNum item =
    match match_youPay (textContent (self item)) with
    | Some g => parseFloat g
    | None =>
        match match_percent (textContent (self c)) with
        | Some g =>
            Num.sub (priceNum item)
              (Num.mul (priceNum item) (Num.div (parseInt g) (Fin 100)))
        | None =>
            match match_dollar (textContent (self c)) with
            | Some g => Num.max (Fin 0) (Num.sub (priceNum item) (parseFloat g))
            | None => priceNum item
            end
        end
    end.
Proof.
  intros Hc Hp. unfold finalPriceNum, final_price. rewrite Hc, Hp.
  destruct (match_youPay _); [reflexivity|].
  destruct (match_percent _); [reflexivity|].
  destruct (match_dollar _); reflexivity.
Qed.

(** C1, in the form that holds: with a coupon element, a positive finite
    base price and no You pay phrase in the text of the item, the final
    price is at most the base price; in the dollar-amount branch it is
    also at least 0. *)
Theorem coupon_never_raises_price (item c : located) (b : Q) :
  couponElem item = Some c ->
  priceNum item = Fin b ->
  0 < b ->
  match_youPay (textContent (self item)) = None ->
  Num.leb (finalPriceNum item) (priceNum item) = true /\
  (match_percent (textContent (self c)) = None ->
   match_dollar (textContent (self c)) <> None ->
   Num.leb (Fin 0) (finalPriceNum item) = true).
Proof.
  intros Hc Hb Hpos Hyou.
  assert (Hgt : Num.gtb (priceNum item) (Fin 0) = true).
  { rewrite Hb. apply ltb_fin. exact Hpos. }
  rewrite (final_price_branches item c Hc Hgt), Hyou, Hb.
  destruct (match_percent (textContent (self c))) as [g|] eqn:Ep.
  - split; [|discriminate].
    apply search_some in Ep as [t Ht].
    apply percent_at_head in Ht as (x & r & -> & Hx).
    destruct (parseInt_digit_head x r Hx) as (z & Hz & ->).
    apply percent_le; [exact Hpos|].
    change 0 with (inject_Z 0). rewrite <- Zle_Qle. exact Hz.
  - destruct (match_dollar (textContent (self c))) as [g|] eqn:Ed.
    + apply search_some in Ed as [t Ht].
      apply dollar_at_head in Ht as (x & r & -> & Hx).
      destruct (parseFloat_digit_head x r Hx) as (d & Hd & ->).
      destruct (dollar_bounds b d Hpos Hd) as [H1 H2].
      split; [exact H1 | intros _ _; exact H2].
    + split; [apply leb_fin; lra | congruence].
Qed.

(** The desk: $40.00 with 20% off. *)
Lemma coupon_never_raises_price_witness :
  let item := first_item (page [desk]) in
  (couponElem item = Some (coupon_of item) /\
   priceNum item = Fin (4000 # 100) /\
   0 < 4000 # 100 /\
   match_youPay (textContent (self item)) = None) /\
  Num.leb (finalPriceNum item) (priceNum item) = true.
Proof.
  intros item.
  assert (H1 : couponElem item = Some (coupon_of item)) by reflexivity.
  assert (H2 : priceNum item = Fin (4000 # 100)) by reflexivity.
  assert (H3 : 0 < 4000 # 100) by reflexivity.
  assert (H4 : match_youPay (textContent (self item)) = None) by reflexivity.
  split; [repeat split; assumption|].
  exact (proj1 (coupon_never_raises_price item (coupon_of item) (4000 # 100) H1 H2 H3 H4)).
Defined.

(** C1 without these restrictions fails.  The cable costs $10.00, has a coupon, and its text
    says You pay $50: the final price is 50.  The boundless item has the
    price text Infinity and a 10% coupon: the final price is [NaN], which
    is not at most the base price. *)
Lemma coupon_raises_price_counterexample :
  (let item := first_item (page [cable]) in
   couponElem item <> None /\
   priceNum item = Fin (1000 # 100) /\
   finalPriceNum item = Fin 50 /\
   Num.leb (finalPriceNum item) (priceNum item) = false) /\
  (let item := first_item (page [boundless]) in
   couponElem item <> None /\
   priceNum item = PInf /\
   Num.gtb (priceNum item) (Fin 0) = true /\
   match_youPay (textContent (self item)) = None /\
   finalPriceNum item = NaN /\
   Num.leb (finalPriceNum item) (priceNum item) = false).
Proof.
  split; cbv zeta; repeat split; try (vm_compute; reflexivity);
    vm_compute; discriminate.
Qed.

(** A You pay phrase at any position of the text is found by the search,
    and the search fails only when no position carries one. *)
Lemma match_youPay_complete (pre t x : string) :
  youPay_at t = Some x -> exists y, match_youPay (pre ++ t) = Some y.
Proof.
  intros H. destruct (match_youPay (pre ++ t)) as [y|] eqn:E; [eauto|].
  apply search_none in E. congruence.
Qed.

(** The order of the branches: with a coupon element and a positive base
    price, a match of the You pay pattern fixes the final price to the
    number read from its group, whatever the coupon text says; the
    percentage is consulted only without such a match, and the dollar
    amount only without a percentage. *)
Theorem you_pay_overrides (item c : located) :
  couponElem item = Some c ->
  Num.gtb (priceNum item) (Fin 0) = true ->
  (forall x, match_youPay (textContent (self item)) = Some x ->
             finalPriceNum item = parseFloat x) /\
  (match_youPay (textContent (self item)) = None ->
   (forall n, match_percent (textContent (self c)) = Some n ->
              finalPriceNum item =
                Num.sub (priceNum item)
                  (Num.mul (priceNum item) (Num.div (parseInt n) (Fin 100)))) /\
   (match_percent (textContent (self c)) = None ->
    (forall d, match_dollar (textContent (self c)) = Some d ->
               finalPriceNum item =
                 Num.max (Fin 0) (Num.sub (priceNum item) (parseFloat d))) /\
    (match_dollar (textContent (self c)) = None ->
     finalPriceNum item = priceNum item))).
Proof.
  intros Hc Hp. rewrite (final_price_branches item c Hc Hp).
  split; [intros x ->; reflexivity|].
  intros ->. split; [intros n ->; reflexivity|].
  intros ->. split; [intros d ->; reflexivity|].
  intros ->. reflexivity.
Qed.

(** The lamp: $25.00, a coupon reading 10% off and a line You pay $19.99
    give 19.99, not 22.50. *)
Lemma you_pay_overrides_witness :
  let item := first_item (page [lamp]) in
  (couponElem item = Some (coupon_of item) /\
   Num.gtb (priceNum item) (Fin 0) = true) /\
  priceNum item = Fin (2500 # 100) /\
  match_percent (textContent (self (coupon_of item))) = Some "10" /\
  match_youPay (textContent (self item)) = Some "19.99" /\
  finalPriceNum item = Fin (1999 # 100) /\
  Num.eqb (finalPriceNum item) (Fin (2250 # 100)) = false.
Proof.
  intros item.
  assert (H1 : couponElem item = Some (coupon_of item)) by reflexivity.
  assert (H2 : Num.gtb (priceNum item) (Fin 0) = true) by reflexivity.
  assert (H3 : match_youPay (textContent (self item)) = Some "19.99") by reflexivity.
  pose proof (proj1 (you_pay_overrides item (coupon_of item) H1 H2) "19.99" H3) as H.
  split; [split; assumption|].
  split; [reflexivity|]. split; [reflexivity|]. split; [exact H3|].
  split; [exact H | reflexivity].
Defined.

(** With a finite positive base price, no You pay phrase and a percentage
    above 100, the final price is below zero. *)
Lemma percent_over_100_negative (item c : located) (b : Q) (n : string) :
  couponElem item = Some c ->
  priceNum item = Fin b ->
  0 < b ->
  match_youPay (textContent (self item)) = None ->
  match_percent (textContent (self c)) = Some n ->
  Num.gtb (parseInt n) (Fin 100) = true ->
  Num.ltb (finalPriceNum item) (Fin 0) = true.
Proof.
  intros Hc Hb Hpos Hyou Hn Hbig.
  assert (Hgt : Num.gtb (priceNum item) (Fin 0) = true).
  { rewrite Hb. apply ltb_fin. exact Hpos. }
  rewrite (final_price_branches item c Hc Hgt), Hyou, Hn, Hb.
  apply search_some in Hn as [t Ht].
  apply percent_at_head in Ht as (x & r & -> & Hx).
  destruct (parseInt_digit_head x r Hx) as (z & Hz & E).
  rewrite E in *. apply percent_negative; [exact Hpos|].
  apply ltb_fin in Hbig. exact Hbig.
Qed.

(** C10: the floor at 0 belongs to the dollar branch only.  The kite costs
    $10.00 and its coupon reads 250%: no You pay phrase, a percentage
    above 100, and a final price below zero. *)
Theorem percent_branch_not_floored :
  exists (item c : located) (n : string),
    couponElem item = Some c /\
    Num.gtb (priceNum item) (Fin 0) = true /\
    match_youPay (textContent (self item)) = None /\
    match_percent (textContent (self c)) = Some n /\
    Num.gtb (parseInt n) (Fin 100) = true /\
    Num.ltb (finalPriceNum item) (Fin 0) = true /\
    finalPrice item = "$-15.00".
Proof.
  exists (first_item (page [kite])), (coupon_of (first_item (page [kite]))), "250".
  repeat split; vm_compute; reflexivity.
Qed.

(** The dollar branch on the same price: $10.00 with $15 off gives 0. *)
Example dollar_branch_floored :
  Num.eqb (finalPriceNum (first_item (page [pen]))) (Fin 0) = true /\
  finalPrice (first_item (page [pen])) = "$0.00".
Proof. split; vm_compute; reflexivity. Qed.

(** $40.00 with 20% off gives 32.00. *)
Example percent_branch_desk :
  Num.eqb (finalPriceNum (first_item (page [desk]))) (Fin 32) = true /\
  finalPrice (first_item (page [desk])) = "$32.00".
Proof. split; vm_compute; reflexivity. Qed.

End Coupon.

(** ** The order of the rows *)

Section Order.
Import Str Dom Parse Regex Extractor Props Fixtures.

Lemma leb_trans (a b c : number) :
  Num.leb a b = true -> Num.leb b c = true -> Num.leb a c = true.
Proof.
  intros H1 H2.
  destruct a as [| | |x], b as [| | |y], c as [| | |z];
    try reflexivity; try discriminate H1; try discriminate H2.
  apply leb_fin in H1. apply leb_fin in H2.
  apply (proj2 (leb_fin x z)). lra.
Qed.

(** A comparison that is not positive, between numbers, means [a <= b]. *)
Lemma not_after_leb (a b : number) :
  a <> NaN -> b <> NaN ->
  Num.gtb (Num.sub a b) (Fin 0) = false -> Num.leb a b = true.
Proof.
  intros Ha Hb H.
  destruct a as [| | |x], b as [| | |y];
    try congruence; try reflexivity; try discriminate H.
  change (Num.ltb (Fin 0) (Fin (x - y)) = false) in H.
  apply leb_fin. destruct (Qlt_le_dec y x) as [Hlt|Hle]; [|exact Hle].
  assert (Num.ltb (Fin 0) (Fin (x - y)) = true) by (apply ltb_fin; lra).
  congruence.
Qed.

(** A positive comparison means [b <= a]. *)
Lemma after_leb (a b : number) :
  Num.gtb (Num.sub a b) (Fin 0) = true -> Num.leb b a = true.
Proof.
  intros H.
  destruct a as [| | |x], b as [| | |y]; try reflexivity; try discriminate H.
  change (Num.ltb (Fin 0) (Fin (x - y)) = true) in H.
  apply ltb_fin in H. apply leb_fin. lra.
Qed.

Lemma insert_perm {A : Type} (cmp : A -> A -> number) (x : A) (l : list A) :
  Permutation (x :: l) (insert cmp x l).
Proof.
  induction l as [|y l IH]; simpl; [reflexivity|].
  destruct (after cmp x y); [|reflexivity].
  rewrite perm_swap. constructor. exact IH.
Qed.

(** Whatever the comparison function, sorting only rearranges. *)
Lemma sort_perm {A : Type} (cmp : A -> A -> number) (l : list A) :
  Permutation l (sort cmp l).
Proof.
  induction l as [|x l IH]; simpl; [constructor|].
  rewrite <- insert_perm. constructor. exact IH.
Qed.

Lemma insert_sorted (x : entry) (l : list entry) :
  not_nan x -> Forall not_nan l ->
  StronglySorted price_le l -> StronglySorted price_le (insert by_price x l).
Proof.
  intros Hx Hl Hs. induction Hs as [|y l Hs IH Hy]; simpl.
  - repeat constructor.
  - inversion Hl as [|? ? Hny Hl']; subst.
    destruct (after by_price x y) eqn:E.
    + constructor; [apply IH; exact Hl'|].
      rewrite <- insert_perm. constructor; [|exact Hy].
      apply after_leb. exact E.
    + assert (Hxy : price_le x y) by (apply not_after_leb; assumption).
      constructor; [constructor; assumption|].
      constructor; [exact Hxy|].
      eapply Forall_impl; [|exact Hy].
      intros z Hz. unfold price_le in *. eapply leb_trans; eassumption.
Qed.

Lemma sort_sorted (l : list entry) :
  Forall not_nan l -> StronglySorted price_le (sort by_price l).
Proof.
  induction 1 as [|x l Hx Hl IH]; simpl; [constructor|].
  apply insert_sorted; [exact Hx| |exact IH].
  rewrite <- sort_perm. exact Hl.
Qed.

Lemma sorted_ascending (l : list entry) :
  StronglySorted price_le l -> ascending (map entry_priceNum l) = true.
Proof.
  induction 1 as [|x l Hs IH Hx]; [reflexivity|].
  destruct l as [|y l']; [reflexivity|].
  change (Num.leb (entry_priceNum x) (entry_priceNum y)
          && ascending (map entry_priceNum (y :: l')) = true).
  rewrite IH. inversion Hx; subst. unfold price_le in *.
  apply andb_true_iff. split; [assumption | reflexivity].
Qed.

Lemma sorted_before (l pre post : list entry) (e : entry) :
  StronglySorted price_le l -> l = (pre ++ e :: post)%list -> Forall (fun x => price_le x e) pre.
Proof.
  intros Hs. revert pre. induction Hs as [|x l Hs IH Hx]; intros pre E.
  - destruct pre; discriminate.
  - destruct pre as [|p pre]; [constructor|].
    injection E as -> ->. constructor.
    + rewrite Forall_forall in Hx. apply Hx. apply in_or_app. right. left. reflexivity.
    + apply IH. reflexivity.
Qed.

(** A list of two or more numbers with a [NaN] in it is ascending in no
    arrangement, whatever the sort does. *)
Lemma nan_never_ascending (l : list number) :
  In NaN l -> (2 <= length l)%nat -> ascending l = false.
Proof.
  induction l as [|a l IH]; [intros []|].
  intros Hin Hlen. destruct l as [|b l']; [simpl in Hlen; lia|].
  change (Num.leb a b && ascending (b :: l') = false).
  destruct Hin as [->|Hin]; [reflexivity|].
  destruct l' as [|c l''].
  - destruct Hin as [->|[]]. destruct a; reflexivity.
  - rewrite IH; [apply andb_false_r | exact Hin | simpl; lia].
Qed.

(** C3, in the form that holds: when no effective price is [NaN], sorting
    rearranges the entries into ascending order of effective price, and
    no entry priced above -1 comes before an entry without a price. *)
Theorem rows_ascending (l : list entry) :
  Forall not_nan l ->
  Permutation l (sort by_price l) /\
  StronglySorted price_le (sort by_price l) /\
  ascending (map entry_priceNum (sort by_price l)) = true /\
  (forall pre e post,
     sort by_price l = (pre ++ e :: post)%list ->
     unpriced e = true ->
     Forall (fun x => Num.gtb (entry_priceNum x) (Fin (-1)) = false) pre).
Proof.
  intros Hl. pose proof (sort_sorted l Hl) as Hs.
  split; [apply sort_perm|]. split; [exact Hs|].
  split; [apply sorted_ascending; exact Hs|].
  intros pre e post E Hu.
  eapply Forall_impl; [|exact (sorted_before _ pre post e Hs E)].
  intros x Hx. unfold price_le, unpriced in *.
  destruct (entry_priceNum x) as [| | |p], (entry_priceNum e) as [| | |q];
    try discriminate Hu; try discriminate Hx; try reflexivity.
  change (Qeq_bool q (-1) = true) in Hu.
  apply Qeq_bool_eq in Hu. apply leb_fin in Hx.
  destruct (Num.gtb (Fin p) (Fin (-1))) eqn:G; [|reflexivity].
  change (Num.ltb (Fin (-1)) (Fin p) = true) in G.
  apply ltb_fin in G. lra.
Qed.

(** Five entries with the prices -1, 12.50, 3.00, -1 and 7.25. *)
Lemma rows_ascending_witness :
  let l := collect (find_items
             (page [ghost; plain "P" "12." "50"; plain "Q" "3." "00"; ghost;
                    plain "R" "7." "25"])) in
  Forall not_nan l /\
  map price l = ["No Price"; "$12.50"; "$3.00"; "No Price"; "$7.25"] /\
  map price (sort by_price l) = ["No Price"; "No Price"; "$3.00"; "$7.25"; "$12.50"] /\
  ascending (map entry_priceNum (sort by_price l)) = true.
Proof.
  intros l.
  assert (H : Forall not_nan l) by (repeat constructor; discriminate).
  split; [exact H|]. split; [reflexivity|]. split; [reflexivity|].
  exact (proj1 (proj2 (proj2 (rows_ascending l H)))).
Defined.

(** C3 without these restrictions fails.  A price read from the combined
    element alone starts with the currency sign and parses to [NaN]: the
    rows stay in the order 3.00, NaN, 1.00, and no arrangement of these
    prices is ascending.  And a 250% coupon on $10.00 gives -15, which
    sorts before the entry without a price. *)
Lemma rows_order_counterexample :
  (let rows := rendered (page [plain "A" "3." "00"; combined "B" "$2.50";
                               plain "C" "1." "00"]) in
   map price rows = ["$3.00"; "$$2.50"; "$1.00"] /\
   map entry_priceNum rows = [Fin (300 # 100); NaN; Fin (100 # 100)] /\
   ascending (map entry_priceNum rows) = false /\
   (forall l, Permutation (map entry_priceNum rows) l -> ascending l = false)) /\
  (let rows := rendered (page [ghost; kite]) in
   map price rows = ["$-15.00"; "No Price"] /\
   unpriced_first rows = false).
Proof.
  split; cbv zeta.
  - split; [reflexivity|]. split; [reflexivity|]. split; [reflexivity|].
    intros l Hp. apply nan_never_ascending.
    + apply (Permutation_in _ Hp). right. left. reflexivity.
    + rewrite <- (Permutation_length Hp). simpl. lia.
  - split; reflexivity.
Qed.

(** The entries of a document appear in the markup in the sorted order. *)
Example rendered_in_order :
  map title (rendered (page [desk; ghost; fan; soap])) =
    [Some "Ghost"; Some "Soap"; Some "Desk"; Some "Fan"] /\
  map price (rendered (page [desk; ghost; fan; soap])) =
    ["No Price"; "$4.25"; "$32.00"; "$1,299.50"] /\
  map deliveryText (rendered (page [desk; ghost; fan; soap])) =
    [""; "Today"; ""; "Tomorrow"].
Proof. repeat split. Qed.

End Order.

(** ** The entries kept *)

Section Entries.
Import Str Dom Parse Regex Extractor Props Fixtures.



Lemma collect_In (items : list located) (e : entry) :
  In e (collect items) <-> exists item, In item items /\ process_item item = Some e.
Proof.
  induction items as [|i items IH]; simpl.
  - split; [intros [] | intros (? & [] & _)].
  - destruct (process_item i) as [e'|] eqn:E; simpl; rewrite IH; split.
    + intros [<-|(x & Hx & Hp)]; eauto.
    + intros (x & [<-|Hx] & Hp); [left; congruence | eauto].
    + intros (x & Hx & Hp); eauto.
    + intros (x & [<-|Hx] & Hp); [congruence | eauto].
Qed.

Lemma collect_length (items : list located) :
  length (collect items) = length (filter has_title_and_link items).
Proof.
  induction items as [|i items IH]; [reflexivity|].
  cbn [collect filter]. unfold process_item, has_title_and_link.
  destruct (titleElem i), (urlElem i); cbn [length]; rewrite IH; reflexivity.
Qed.


(** An item with a link but no title, one with a title but no link, and
    one with both but no price: only the last gives a row. *)
Example only_titled_and_linked :
  map title (rendered (page [untitled; unlinked; ghost])) = [Some "Ghost"] /\
  titleElem (item_of untitled) = None /\ urlElem (item_of untitled) <> None /\
  titleElem (item_of unlinked) <> None /\ urlElem (item_of unlinked) = None.
Proof. repeat split; vm_compute; congruence. Qed.

End Entries.

(** ** The extraction boundary *)

Section Boundary.
Import Str Dom Parse Regex Extractor Props Fixtures Controller.

Lemma extract_success (d : document) :
  body d <> None ->
  extractAmazonResultsWithFrameInfo d =
    inr (mkResult (location_href d)
           (html_head ++ html_rows (rendered d) ++ "</tbody></table>")).
Proof.
  intros H. unfold extractAmazonResultsWithFrameInfo, extract_try, body_innerHTML.
  destruct (body d); [reflexivity | congruence].
Qed.

Lemma extract_failure (d : document) :
  body d = None ->
  extract_try d = inl null_innerHTML /\
  extractAmazonResultsWithFrameInfo d =
    inr (mkResult (location_href d)
           ("Error extracting results: " ++ message null_innerHTML)).
Proof.
  intros H. unfold extractAmazonResultsWithFrameInfo, extract_try, body_innerHTML.
  rewrite H. split; reflexivity.
Qed.

(** C5: the function returns an object for every document; when the
    [try] block raises, the object carries the page address and the
    error text built from the message of the exception. *)
Theorem extractor_never_raises (d : document) :
  exists r,
    extractAmazonResultsWithFrameInfo d = inr r /\
    result_url r = location_href d /\
    (forall e, extract_try d = inl e ->
               html r = "Error extracting results: " ++ message e) /\
    (forall r0, extract_try d = inr r0 -> r = r0).
Proof.
  destruct (body d) as [b|] eqn:E.
  - assert (Hb : body d <> None) by congruence.
    pose proof (extract_success d Hb) as Hs.
    eexists. split; [exact Hs|]. split; [reflexivity|].
    unfold extract_try, body_innerHTML. rewrite E. split.
    + discriminate.
    + intros r0 [= <-]. reflexivity.
  - destruct (extract_failure d E) as [Ht He].
    eexists. split; [exact He|]. split; [reflexivity|].
    rewrite Ht. split.
    + intros e [= <-]. reflexivity.
    + discriminate.
Qed.

(** A frame without a body takes the error path. *)
Example svg_frame_error :
  extract_try svg_frame = inl null_innerHTML /\
  extractAmazonResultsWithFrameInfo svg_frame =
    inr (mkResult "https://www.amazon.com/logo.svg"
           "Error extracting results: Cannot read properties of null (reading 'innerHTML')").
Proof. split; reflexivity. Qed.

End Boundary.

(** ** The controller *)

Section ControllerFacts.
Import Str Dom Parse Regex Extractor Props Fixtures Controller.

Lemma html_style_head : exists t, html_style = String (ascii_of_nat 10) t.
Proof. eexists. reflexivity. Qed.

Lemma html_head_nonempty (rest : string) :
  exists t, html_head ++ rest = String (ascii_of_nat 10) t.
Proof.
  destruct html_style_head as [t Ht]. unfold html_head. rewrite Ht.
  eexists. reflexivity.
Qed.

(** The two shapes of the returned object. *)
Lemma extract_cases (d : document) (r : result) :
  extractAmazonResultsWithFrameInfo d = inr r ->
  (body d <> None /\
   r = mkResult (location_href d)
         (html_head ++ html_rows (rendered d) ++ "</tbody></table>")) \/
  (body d = None /\
   r = mkResult (location_href d)
         ("Error extracting results: " ++ message null_innerHTML)).
Proof.
  intros H. destruct (body d) as [b|] eqn:E.
  - left. assert (Hb : body d <> None) by congruence.
    split; [congruence|]. rewrite (extract_success d Hb) in H. congruence.
  - right. split; [reflexivity|].
    rewrite (proj2 (extract_failure d E)) in H. congruence.
Qed.

(** Whatever the extractor returns is usable for the controller. *)
Lemma extract_usable (d : document) (r : result) :
  extractAmazonResultsWithFrameInfo d = inr r -> usable (mkFrame (Some r)) = true.
Proof.
  intros H. unfold usable. cbn [frame_result].
  destruct (extract_cases d r H) as [[_ ->]|[_ ->]]; cbn [html].
  - destruct (html_head_nonempty (html_rows (rendered d) ++ "</tbody></table>")) as [t ->].
    reflexivity.
  - reflexivity.
Qed.

Lemma first_usable_some (frames : list frame) (f : frame) :
  In f frames -> usable f = true -> first_usable frames <> None.
Proof.
  induction frames as [|g frames IH]; [intros []|].
  intros [->|Hin] Hf; cbn [first_usable].
  - rewrite Hf. unfold usable in Hf. destruct (frame_result f); [discriminate | discriminate].
  - destruct (usable g) eqn:Eg; [|apply IH; assumption].
    unfold usable in Eg. destruct (frame_result g); discriminate.
Qed.

(** C8, in the form that holds: the returned markup is never empty and
    never the empty-list text; with a body in the document it is the
    style sheet, the filter controls and the table around the rows, and
    without one it is the error text.  So a frame that holds a returned
    object makes the loop of the controller find an output. *)
Theorem html_never_empty_list (d : document) (r : result) :
  extractAmazonResultsWithFrameInfo d = inr r ->
  html r <> "" /\
  html r <> "<ul></ul>" /\
  (body d <> None ->
   html r = html_style ++ html_controls ++ html_rows (rendered d) ++ "</tbody></table>") /\
  (body d = None ->
   html r = "Error extracting results: " ++ message null_innerHTML) /\
  (forall w frames,
     lastError w = None -> results w = Some frames ->
     In (mkFrame (Some r)) frames ->
     exists output,
       first_usable frames = Some output /\ on_results w = InnerHTML output).
Proof.
  intros H. pose proof (extract_usable d r H) as Hu.
  assert (Hne : html r <> "" /\ html r <> "<ul></ul>").
  { unfold usable in Hu. cbn [frame_result] in Hu.
    apply andb_true_iff in Hu as [H1 H2]. split.
    - intros E. rewrite E in H1. discriminate.
    - intros E. rewrite E in H2. discriminate. }
  destruct Hne as [Hn1 Hn2]. split; [exact Hn1|]. split; [exact Hn2|].
  split; [|split].
  - intros Hb. destruct (extract_cases d r H) as [[_ ->]|[Hb' _]]; [|congruence].
    cbn [html]. unfold html_head. rewrite append_assoc. reflexivity.
  - intros Hb. destruct (extract_cases d r H) as [[Hb' _]|[_ ->]]; [congruence|].
    reflexivity.
  - intros w frames Hle Hres Hin.
    pose proof (first_usable_some frames _ Hin Hu) as Hf.
    destruct (first_usable frames) as [output|] eqn:E; [|congruence].
    exists output. split; [reflexivity|].
    unfold on_results. rewrite Hle, Hres.
    destruct frames as [|f frames']; [destruct Hin|].
    rewrite E. reflexivity.
Qed.

(** A results page without any product: the markup is the style sheet,
    the controls and an empty table, and the controller shows it. *)
Lemma html_never_empty_list_witness :
  let d := page [] in
  let r := mkResult (location_href d) (html_head ++ "</tbody></table>") in
  extractAmazonResultsWithFrameInfo d = inr r /\
  rendered d = [] /\
  html r <> "<ul></ul>" /\
  first_usable [mkFrame None; mkFrame (Some r)] = Some (html r).
Proof.
  intros d r.
  assert (H : extractAmazonResultsWithFrameInfo d = inr r) by reflexivity.
  pose proof (html_never_empty_list d r H) as (_ & H2 & _ & _ & H5).
  split; [exact H|]. split; [reflexivity|]. split; [exact H2|].
  reflexivity.
Defined.

(** C8 fails where it says that the markup always holds the
    style sheet, the controls and the table: for a frame without a body
    it is the error text, which holds none of them. *)
Lemma html_without_table_counterexample :
  exists r,
    extractAmazonResultsWithFrameInfo svg_frame = inr r /\
    html r = "Error extracting results: Cannot read properties of null (reading 'innerHTML')" /\
    includes (html r) "<style>" = false /\
    includes (html r) "filter-input" = false /\
    includes (html r) "<table>" = false.
Proof.
  eexists. split; [reflexivity|]. repeat split; vm_compute; reflexivity.
Qed.

(** C6: when there is no active tab, or the tab has no address, or the
    address is not one of the site, the script is not injected and the
    display area, if there is one, receives the text of the rejection. *)
Theorem off_site_never_injects (w : world) (tabs : list tab) (msg : string) :
  tabs_query w = inr tabs ->
  rejection tabs msg ->
  injected (handleExtract w) = [] /\
  (has_resultsDiv w = true -> resultsDiv (handleExtract w) = Some (InnerText msg)) /\
  (has_resultsDiv w = false -> resultsDiv (handleExtract w) = None).
Proof.
  intros Hq Hr. unfold handleExtract. rewrite Hq.
  destruct Hr as [|t rest [Hu|Hu]|t rest u Hu Hne Ham];
    try rewrite Hu; try rewrite Ham;
    try (destruct u as [|x u']; [congruence|]);
    destruct (has_resultsDiv w); cbn;
    repeat split; try reflexivity; discriminate.
Qed.

(** On a page of the site the script is injected into the tab. *)
Lemma on_site_injects (w : world) (t : tab) (rest : list tab) (u : string) :
  has_resultsDiv w = true ->
  tabs_query w = inr (t :: rest) ->
  tab_url t = Some u -> amazon_url u = true ->
  handleExtract w = mkEffects (Some (on_results w)) [tab_id t].
Proof.
  intros Hd Hq Hu Ha. unfold handleExtract. rewrite Hd, Hq, Hu, Ha.
  destruct u; [discriminate Ha | reflexivity].
Qed.

(** A tab on another site. *)
Lemma off_site_never_injects_witness :
  let w := mkWorld true (inr [mkTab 7 (Some "https://www.example.com/s?k=amazon.")])
             None (Some [mkFrame None]) in
  rejection [mkTab 7 (Some "https://www.example.com/s?k=amazon.")]
    "Please navigate to an Amazon search results page." /\
  injected (handleExtract w) = [] /\
  resultsDiv (handleExtract w) =
    Some (InnerText "Please navigate to an Amazon search results page.").
Proof.
  intros w.
  assert (Hr : rejection [mkTab 7 (Some "https://www.example.com/s?k=amazon.")]
                 "Please navigate to an Amazon search results page.").
  { eapply off_site; [reflexivity | discriminate | reflexivity]. }
  pose proof (off_site_never_injects w _ _ eq_refl Hr) as (H1 & H2 & _).
  split; [exact Hr|]. split; [exact H1 | exact (H2 eq_refl)].
Defined.

Example amazon_url_samples :
  amazon_url "https://www.amazon.com/s?k=lamp" = true /\
  amazon_url "http://amazon.co.uk/" = true /\
  amazon_url "https://smile.amazon.com/" = false /\
  amazon_url "https://www.amazon" = false /\
  amazon_url "ftp://www.amazon.com/" = false.
Proof. repeat split. Qed.

End ControllerFacts.

(** ** The row filter *)

Section Filter.
Import Str Dom Props Fixtures Popup.

Lemma contains_app (c : string) (l m : list string) :
  contains c (l ++ m)%list = contains c l || contains c m.
Proof. unfold contains. apply existsb_app. Qed.

Lemma contains_add_same (c : string) (l : list string) : contains c (add c l) = true.
Proof.
  unfold add. destruct (contains c l) eqn:E; [exact E|].
  rewrite contains_app, E. simpl. rewrite String.eqb_refl. reflexivity.
Qed.

Lemma contains_add_other (c h : string) (l : list string) :
  c <> h -> contains c (add h l) = contains c l.
Proof.
  intros Hne. unfold add. destruct (contains h l); [reflexivity|].
  rewrite contains_app. simpl.
  destruct (String.eqb_spec c h); [congruence|]. rewrite !orb_false_r. reflexivity.
Qed.

Lemma contains_remove_same (c : string) (l : list string) : contains c (remove c l) = false.
Proof.
  induction l as [|x l IH]; [reflexivity|]. simpl.
  destruct (String.eqb_spec x c) as [->|Hne]; simpl; [exact IH|].
  destruct (String.eqb_spec c x); [congruence | exact IH].
Qed.

Lemma contains_remove_other (c h : string) (l : list string) :
  c <> h -> contains c (remove h l) = contains c l.
Proof.
  intros Hne. induction l as [|x l IH]; [reflexivity|]. simpl.
  destruct (String.eqb_spec x h) as [->|Hx]; simpl.
  - destruct (String.eqb_spec c h); [congruence | exact IH].
  - rewrite IH. reflexivity.
Qed.

Lemma add_idempotent (c : string) (l : list string) : add c (add c l) = add c l.
Proof.
  unfold add at 1. rewrite contains_add_same. reflexivity.
Qed.

Lemma remove_absent (c : string) (l : list string) :
  contains c l = false -> remove c l = l.
Proof.
  induction l as [|x l IH]; [reflexivity|]. simpl. intros H.
  apply orb_false_iff in H as [H1 H2].
  rewrite String.eqb_sym, H1. simpl. rewrite IH by exact H2. reflexivity.
Qed.

Lemma remove_idempotent (c : string) (l : list string) :
  remove c (remove c l) = remove c l.
Proof. apply remove_absent. apply contains_remove_same. Qed.

Lemma toLowerCase_empty (s : string) : toLowerCase s = "" <-> s = "".
Proof. destruct s; simpl; split; congruence. Qed.

Lemma includes_empty (s : string) : includes s "" = true.
Proof. destruct s; reflexivity. Qed.

Lemma row_title_link_text (r : row) : row_title r = toLowerCase (link_text r).
Proof.
  unfold row_title, link_text.
  destruct (querySelector (row_elem r) [[Tag "a"]]); reflexivity.
Qed.

(** [showRow] as the conjunction of the text test and the delivery test. *)
Lemma showRow_spec (tf : string) (ta tm : bool) (r : row) :
  showRow tf ta tm r =
    (negb (truthy tf) || includes (row_title r) tf)
    && (negb (ta || tm)
        || (ta && attr_is_true r "data-delivery-today")
        || (tm && attr_is_true r "data-delivery-tomorrow")).
Proof.
  unfold showRow.
  destruct (truthy tf), (includes (row_title r) tf), ta, tm,
    (attr_is_true r "data-delivery-today"),
    (attr_is_true r "data-delivery-tomorrow"); reflexivity.
Qed.

Lemma visible_filter_row (tf : string) (ta tm : bool) (r : row) :
  visible (filter_row tf ta tm r) = showRow tf ta tm r.
Proof.
  unfold filter_row, visible. destruct (showRow tf ta tm r); cbn [row_classList].
  - rewrite contains_remove_same. reflexivity.
  - rewrite contains_add_same. reflexivity.
Qed.

Lemma filter_row_keeps (tf : string) (ta tm : bool) (r : row) :
  row_elem (filter_row tf ta tm r) = row_elem r /\
  (forall c, c <> "hidden" ->
             contains c (row_classList (filter_row tf ta tm r)) = contains c (row_classList r)).
Proof.
  unfold filter_row. destruct (showRow tf ta tm r); cbn [row_elem row_classList];
    split; try reflexivity; intros c Hc.
  - apply contains_remove_other. exact Hc.
  - apply contains_add_other. exact Hc.
Qed.

Lemma filter_row_idempotent (tf : string) (ta tm : bool) (r : row) :
  filter_row tf ta tm (filter_row tf ta tm r) = filter_row tf ta tm r.
Proof.
  assert (Hs : showRow tf ta tm (filter_row tf ta tm r) = showRow tf ta tm r).
  { unfold showRow, row_title, attr_is_true.
    rewrite (proj1 (filter_row_keeps tf ta tm r)). reflexivity. }
  unfold filter_row at 1. rewrite Hs.
  unfold filter_row. destruct (showRow tf ta tm r); cbn [row_elem row_classList].
  - rewrite remove_idempotent. reflexivity.
  - rewrite add_idempotent. reflexivity.
Qed.


(** With both toggles active and no filter text a row is shown exactly
    when it is marked for today or for tomorrow. *)
Lemma both_toggles_show_marked (p : popup) (r : row) :
  filter_value p = "" ->
  deliveryTodayActive p = true ->
  deliveryTomorrowActive p = true ->
  visible (filter_row (textFilter p) (deliveryTodayActive p) (deliveryTomorrowActive p) r) =
    attr_is_true r "data-delivery-today" || attr_is_true r "data-delivery-tomorrow".
Proof.
  intros Hf Ha Hm. rewrite visible_filter_row, showRow_spec, Ha, Hm.
  assert (Ht : textFilter p = "").
  { unfold textFilter, filter_value in *. destruct (filterInput p); [|reflexivity].
    rewrite Hf. reflexivity. }
  rewrite Ht. reflexivity.
Qed.

(** With both toggles active and no filter text, a row marked for today
    and a row marked for tomorrow are shown and an unmarked row is hidden;
    the rows stay where they were. *)
Example both_toggles_active :
  let p := applyFilters (sample_popup "" ["delivery-filter"; "active"] ["delivery-filter"; "active"]) in
  map visible (rows p) = [true; true; false] /\
  map row_elem (rows p) = map row_elem [row_today; row_tomorrow; row_later] /\
  map row_classList (rows p) =
    [["product-row"]; ["product-row"]; ["product-row"; "hidden"]].
Proof. repeat split. Qed.

(** The text filter ignores case. *)
Example text_filter_ignores_case :
  map visible (rows (applyFilters (sample_popup "LAMP" [] []))) = [true; false; false] /\
  map visible (rows (applyFilters (sample_popup "usb c" [] ["active"]))) = [false; true; false].
Proof. split; reflexivity. Qed.

Lemma applyFilters_idempotent (p : popup) :
  applyFilters (applyFilters p) = applyFilters p.
Proof.
  unfold applyFilters. cbn [filterInput deliveryTodayFilter deliveryTomorrowFilter rows].
  f_equal. rewrite map_map. apply map_ext. intros r.
  apply (filter_row_idempotent (textFilter p) (deliveryTodayActive p)
           (deliveryTomorrowActive p) r).
Qed.

Lemma showRow_unfiltered (r : row) : showRow "" false false r = true.
Proof. reflexivity. Qed.

(** The state the clear button leaves behind. *)
Lemma clear_filters_state (p : popup) :
  on_click "clear-filters" p =
    mkPopup (option_map (fun _ => "") (filterInput p))
      (option_map (remove "active") (deliveryTodayFilter p))
      (option_map (remove "active") (deliveryTomorrowFilter p))
      (map (fun r => mkRow (row_elem r) (remove "hidden" (row_classList r))) (rows p)).
Proof.
  unfold on_click. cbn [String.eqb Ascii.eqb Bool.eqb andb].
  unfold applyFilters. cbn [filterInput deliveryTodayFilter deliveryTomorrowFilter rows].
  f_equal. apply map_ext. intros r.
  assert (Ht : textFilter
                 (mkPopup (option_map (fun _ => "") (filterInput p))
                    (option_map (remove "active") (deliveryTodayFilter p))
                    (option_map (remove "active") (deliveryTomorrowFilter p)) (rows p)) = "").
  { unfold textFilter. cbn [filterInput]. destruct (filterInput p); reflexivity. }
  assert (Ha : deliveryTodayActive
                 (mkPopup (option_map (fun _ => "") (filterInput p))
                    (option_map (remove "active") (deliveryTodayFilter p))
                    (option_map (remove "active") (deliveryTomorrowFilter p)) (rows p)) = false).
  { unfold deliveryTodayActive. cbn [deliveryTodayFilter].
    destruct (deliveryTodayFilter p); [apply contains_remove_same | reflexivity]. }
  assert (Hm : deliveryTomorrowActive
                 (mkPopup (option_map (fun _ => "") (filterInput p))
                    (option_map (remove "active") (deliveryTodayFilter p))
                    (option_map (remove "active") (deliveryTomorrowFilter p)) (rows p)) = false).
  { unfold deliveryTomorrowActive. cbn [deliveryTomorrowFilter].
    destruct (deliveryTomorrowFilter p); [apply contains_remove_same | reflexivity]. }
  rewrite Ht, Ha, Hm. unfold filter_row. rewrite showRow_unfiltered. reflexivity.
Qed.

(** C7: evaluating the filters a second time changes nothing, and the
    clear button empties the filter text, switches both toggles off and
    leaves every row shown, in its place, with its other classes. *)
Theorem filtering_idempotent_clear_restores (p : popup) :
  applyFilters (applyFilters p) = applyFilters p /\
  map visible (rows (applyFilters (applyFilters p))) = map visible (rows (applyFilters p)) /\
  filter_value (on_click "clear-filters" p) = "" /\
  deliveryTodayActive (on_click "clear-filters" p) = false /\
  deliveryTomorrowActive (on_click "clear-filters" p) = false /\
  Forall (fun r => visible r = true) (rows (on_click "clear-filters" p)) /\
  map row_elem (rows (on_click "clear-filters" p)) = map row_elem (rows p) /\
  Forall2
    (fun r r' =>
       forall c, c <> "hidden" ->
                 contains c (row_classList r') = contains c (row_classList r))
    (rows p) (rows (on_click "clear-filters" p)).
Proof.
  split; [apply applyFilters_idempotent|].
  split; [rewrite applyFilters_idempotent; reflexivity|].
  rewrite clear_filters_state. cbn [rows].
  split; [unfold filter_value; cbn [filterInput]; destruct (filterInput p); reflexivity|].
  split; [unfold deliveryTodayActive; cbn [deliveryTodayFilter];
          destruct (deliveryTodayFilter p); [apply contains_remove_same | reflexivity]|].
  split; [unfold deliveryTomorrowActive; cbn [deliveryTomorrowFilter];
          destruct (deliveryTomorrowFilter p); [apply contains_remove_same | reflexivity]|].
  induction (rows p) as [|r l IH]; cbn [map].
  - repeat split; constructor.
  - destruct IH as (I1 & I2 & I3). split; [|split].
    + constructor; [|exact I1]. unfold visible. cbn [row_classList].
      rewrite contains_remove_same. reflexivity.
    + cbn [row_elem]. rewrite I2. reflexivity.
    + constructor; [|exact I3]. intros c Hc. cbn [row_classList].
      apply contains_remove_other. exact Hc.
Qed.

(** A filtered table, then the clear button. *)
Example clear_shows_all :
  let p := applyFilters (sample_popup "lamp" ["active"] []) in
  map visible (rows p) = [true; false; false] /\
  map visible (rows (on_click "clear-filters" p)) = [true; true; true] /\
  map row_elem (rows (on_click "clear-filters" p)) = map row_elem (rows p) /\
  filterInput (on_click "clear-filters" p) = Some "" /\
  deliveryTodayFilter (on_click "clear-filters" p) = Some [].
Proof. repeat split. Qed.

(** A click on a toggle switches it and evaluates the filters. *)
Example toggle_today :
  let p := on_click "delivery-today-filter" (sample_popup "" ["delivery-filter"] ["delivery-filter"]) in
  deliveryTodayFilter p = Some ["delivery-filter"; "active"] /\
  map visible (rows p) = [true; false; false] /\
  map visible (rows (on_click "delivery-today-filter" p)) = [true; true; true].
Proof. repeat split. Qed.

End Filter.

(** * Further properties of the extractor *)

(** ** Delivery classification *)

Section Delivery.
Import Str Dom Parse Regex Extractor Props Fixtures Samples.

Lemma scan_delivery_shape (item : located) (sels : list selector) :
  scan_delivery item sels = delivery_none \/
  scan_delivery item sels = delivery_today \/
  scan_delivery item sels = delivery_tomorrow.
Proof.
  induction sels as [|sel rest IH]; cbn [scan_delivery]; [left; reflexivity|].
  destruct (querySelector item sel) as [e|]; [|exact IH].
  destruct (truthy (textContent (self e))); [|exact IH].
  destruct (includes _ "today" || includes _ "same day"
            || includes _ "within" && includes _ "hour");
    [right; left; reflexivity|].
  destruct (includes _ "tomorrow" || includes _ "next day");
    [right; right; reflexivity | exact IH].
Qed.

Lemma item_delivery_shape (item : located) :
  item_delivery item = delivery_none \/
  item_delivery item = delivery_today \/
  item_delivery item = delivery_tomorrow.
Proof.
  unfold item_delivery.
  destruct (scan_delivery_shape item deliverySelectors) as [H|[H|H]]; rewrite H; cbn.
  - destruct (includes _ "get it today" || _ || _); [right; left; reflexivity|].
    destruct (includes _ "get it tomorrow" || _ || _ || _);
      [right; right; reflexivity | left; reflexivity].
  - right; left; reflexivity.
  - right; right; reflexivity.
Qed.

(** X1: an item is never classified for today and for tomorrow at once,
    and the delivery text always agrees with the two flags: Today with
    the first, Tomorrow with the second, empty with neither. *)
Theorem delivery_flags_exclusive (item : located) :
  d_today (item_delivery item) && d_tomorrow (item_delivery item) = false /\
  d_text (item_delivery item) =
    (if d_today (item_delivery item) then "Today"
     else if d_tomorrow (item_delivery item) then "Tomorrow" else "") /\
  (forall e, process_item item = Some e ->
             isDeliveryToday e && isDeliveryTomorrow e = false /\
             deliveryText e =
               (if isDeliveryToday e then "Today"
                else if isDeliveryTomorrow e then "Tomorrow" else "")).
Proof.
  assert (H : d_today (item_delivery item) && d_tomorrow (item_delivery item) = false /\
              d_text (item_delivery item) =
                (if d_today (item_delivery item) then "Today"
                 else if d_tomorrow (item_delivery item) then "Tomorrow" else "")).
  { destruct (item_delivery_shape item) as [H|[H|H]]; rewrite H; split; reflexivity. }
  destruct H as [H1 H2]. split; [exact H1|]. split; [exact H2|].
  intros e He. unfold process_item in He.
  destruct (titleElem item), (urlElem item); try discriminate.
  injection He as <-. cbn [isDeliveryToday isDeliveryTomorrow deliveryText].
  split; assumption.
Qed.

(** X2: the selectors are tried in order and the first element that
    classifies ends the search: scanning a list is scanning its front
    part, and the rest only when the front part classified nothing.  The
    text of the whole item is consulted only when no selector classified. *)
Theorem delivery_first_match_wins (item : located) (front back : list selector) :
  scan_delivery item (front ++ back) =
    (if d_today (scan_delivery item front) || d_tomorrow (scan_delivery item front)
     then scan_delivery item front
     else scan_delivery item back) /\
  (d_today (scan_delivery item deliverySelectors)
   || d_tomorrow (scan_delivery item deliverySelectors) = true ->
   item_delivery item = scan_delivery item deliverySelectors).
Proof.
  split.
  - induction front as [|sel rest IH]; [reflexivity|].
    cbn [app scan_delivery].
    destruct (querySelector item sel) as [e|]; [|exact IH].
    destruct (truthy (textContent (self e))); [|exact IH].
    destruct (includes _ "today" || includes _ "same day"
              || includes _ "within" && includes _ "hour"); [reflexivity|].
    destruct (includes _ "tomorrow" || includes _ "next day");
      [reflexivity | exact IH].
  - intros H. unfold item_delivery.
    apply orb_true_iff in H as [H|H]; rewrite H; cbn; [reflexivity|].
    rewrite andb_false_r. reflexivity.
Qed.

(** A delivery line that says tomorrow wins over an item text that says
    get it today; without the line the item text decides. *)
Example dedicated_element_first :
  d_text (item_delivery (first_item (page [mixed]))) = "Tomorrow" /\
  d_text (item_delivery (first_item (page [soap]))) = "Today" /\
  d_text (item_delivery (first_item (page [ghost]))) = "".
Proof. repeat split. Qed.

End Delivery.

(** ** Price parsing *)

Section Prices.
Import Str Dom Parse Regex Extractor Props Fixtures Samples Shapes.

Lemma truthy_nonempty (s : string) : truthy s = true <-> s <> "".
Proof. destruct s; simpl; split; congruence. Qed.

Lemma remove_all_app (c : ascii) (a b : string) :
  remove_all c (a ++ b) = remove_all c a ++ remove_all c b.
Proof.
  induction a as [|x a IH]; [reflexivity|]. cbn [append remove_all].
  destruct (Ascii.eqb x c); [exact IH | cbn [append]; rewrite IH; reflexivity].
Qed.

Lemma remove_all_digits (s : string) :
  all_digits s = true -> remove_all ","%char s = s.
Proof.
  induction s as [|x s IH]; [reflexivity|]. cbn [all_digits remove_all].
  intros H. apply andb_true_iff in H as [Hx Hs].
  destruct (Ascii.eqb_spec x ","%char) as [->|_]; [discriminate Hx|].
  rewrite IH by exact Hs. reflexivity.
Qed.

Lemma span_all_digits (ds : string) (c : ascii) (r : string) :
  all_digits ds = true -> is_digit c = false ->
  span is_digit (ds ++ String c r) = (ds, String c r).
Proof.
  intros Hds Hc. induction ds as [|x ds IH]; cbn [append span].
  - rewrite Hc. reflexivity.
  - cbn [all_digits] in Hds. apply andb_true_iff in Hds as [Hx Hs].
    rewrite Hx, (IH Hs). reflexivity.
Qed.

Lemma span_all_digits_end (ds : string) :
  all_digits ds = true -> span is_digit ds = (ds, EmptyString).
Proof.
  induction ds as [|x ds IH]; [reflexivity|]. cbn [all_digits span].
  intros H. apply andb_true_iff in H as [Hx Hs].
  rewrite Hx, (IH Hs). reflexivity.
Qed.

(** The number written as an integer part, a dot and a fraction. *)
Lemma parseFloat_decimal (ds fs : string) :
  all_digits ds = true -> ds <> "" -> all_digits fs = true ->
  parseFloat (ds ++ "." ++ fs) = Fin (decimal ds fs 0).
Proof.
  intros Hds Hne Hfs. destruct ds as [|c ds']; [congruence|].
  pose proof Hds as Hds0. cbn [all_digits] in Hds.
  apply andb_true_iff in Hds as [Hc Hds'].
  assert (E : span is_digit (String c ds' ++ "." ++ fs) = (String c ds', "." ++ fs)).
  { apply span_all_digits; [exact Hds0 | reflexivity]. }
  unfold parseFloat. change (String c ds' ++ "." ++ fs) with (String c (ds' ++ "." ++ fs)) in *.
  cbn [trimStart]. rewrite (is_digit_not_space c Hc).
  destruct c as [[] [] [] [] [] [] [] []]; try discriminate Hc;
    cbn [startsWith Ascii.eqb Bool.eqb andb]; rewrite E;
    cbn [append]; rewrite (span_all_digits_end fs Hfs);
    reflexivity.
Qed.

(** A string that starts with the currency sign is no number. *)
Lemma parseFloat_currency (x : string) : parseFloat (String "$"%char x) = NaN.
Proof. reflexivity. Qed.

(** With a price text, the sign put in front is the one taken off again. *)
Lemma priceNum_priced (item : located) :
  truthy (priceWhole item) = true ->
  priceStr item =
    "$" ++ priceWhole item
        ++ (if truthy (priceFraction item) then "." ++ priceFraction item else "") /\
  priceNum item =
    parseFloat
      (remove_all ","%char
         (priceWhole item
          ++ (if truthy (priceFraction item) then "." ++ priceFraction item else ""))).
Proof.
  intros H. unfold priceNum, priceStr. rewrite H. split; reflexivity.
Qed.

Lemma final_price_gate (item : located) :
  couponElem item = None \/ Num.gtb (priceNum item) (Fin 0) = false ->
  final_price item = (priceStr item, priceNum item).
Proof.
  unfold final_price. intros [H|H]; rewrite H; [reflexivity|].
  destruct (couponElem item); reflexivity.
Qed.

(** X3: a coupon changes nothing unless there is a coupon element and a
    base price above zero; in particular an item without any price text
    stays at No Price and -1, whatever its coupon or its text says. *)
Theorem coupon_needs_positive_price (item : located) :
  (couponElem item = None \/ Num.gtb (priceNum item) (Fin 0) = false ->
   finalPrice item = priceStr item /\ finalPriceNum item = priceNum item) /\
  (truthy (priceWhole item) = false ->
   priceStr item = "No Price" /\ priceNum item = Fin (-1) /\
   finalPrice item = "No Price" /\ finalPriceNum item = Fin (-1)).
Proof.
  split.
  - intros H. unfold finalPrice, finalPriceNum. rewrite (final_price_gate item H).
    split; reflexivity.
  - intros H.
    assert (Hs : priceStr item = "No Price") by (unfold priceStr; rewrite H; reflexivity).
    assert (Hn : priceNum item = Fin (-1)) by (unfold priceNum; rewrite Hs; reflexivity).
    unfold finalPrice, finalPriceNum.
    rewrite (final_price_gate item) by (right; rewrite Hn; reflexivity).
    cbn [fst snd]. rewrite Hs, Hn. repeat split.
Qed.

(** An item with a coupon and a You pay line, but without a price. *)
Example unpriced_with_coupon :
  let item := item_of (product "Bare" [coupon "Save 20%"; leaf "span" [] "You pay $3.00"]) in
  couponElem item <> None /\ finalPrice item = "No Price" /\ finalPriceNum item = Fin (-1).
Proof. cbv zeta. repeat split. discriminate. Qed.

(** X4: when the price text begins with the currency sign, as the text
    of the combined price element does, the base price is [NaN]: the
    displayed price carries two signs and no coupon is applied. *)
Theorem price_with_sign_is_nan (item : located) (rest : string) :
  priceWhole item = String "$"%char rest ->
  startsWith "$$" (priceStr item) = true /\
  priceNum item = NaN /\
  finalPrice item = priceStr item /\
  finalPriceNum item = NaN.
Proof.
  intros H.
  assert (Ht : truthy (priceWhole item) = true) by (rewrite H; reflexivity).
  destruct (priceNum_priced item Ht) as [Hs Hn]. rewrite H in Hs, Hn.
  assert (Hnan : priceNum item = NaN) by (rewrite Hn; reflexivity).
  split; [rewrite Hs; reflexivity|]. split; [exact Hnan|].
  unfold finalPrice, finalPriceNum.
  rewrite (final_price_gate item) by (right; rewrite Hnan; reflexivity).
  split; [reflexivity | exact Hnan].
Qed.

Lemma price_with_sign_is_nan_witness :
  let item := first_item (page [combined "B" "$2.50"]) in
  priceWhole item = "$2.50" /\
  priceStr item = "$$2.50" /\
  priceNum item = NaN /\
  finalPriceNum item = NaN.
Proof.
  intros item.
  assert (H : priceWhole item = String "$"%char "2.50") by reflexivity.
  pose proof (price_with_sign_is_nan item "2.50" H) as (_ & H2 & _ & H4).
  split; [exact H|]. split; [reflexivity|]. split; [exact H2 | exact H4].
Defined.

(** X5: a price text made of digits, with commas between them or not,
    and a fraction made of digits give the number so written: the commas
    stay in the displayed price and are dropped from the number. *)
Theorem price_of_digits (item : located) (w ds fs : string) :
  priceWhole item = w ->
  remove_all ","%char w = ds ->
  all_digits ds = true -> ds <> "" ->
  priceFraction item = fs ->
  all_digits fs = true -> fs <> "" ->
  priceStr item = "$" ++ w ++ "." ++ fs /\
  priceNum item = Fin (decimal ds fs 0).
Proof.
  intros Hw Hds Hd Hne Hf Hfd Hfne.
  assert (Ht : truthy (priceWhole item) = true).
  { rewrite Hw. apply truthy_nonempty. intros ->. apply Hne. rewrite <- Hds. reflexivity. }
  destruct (priceNum_priced item Ht) as [Hs Hn].
  rewrite Hf, Hw in Hs, Hn.
  rewrite (proj2 (truthy_nonempty fs) Hfne) in Hs, Hn.
  split; [exact Hs|].
  rewrite Hn, remove_all_app, Hds.
  change (remove_all ","%char ("." ++ fs)) with ("." ++ remove_all ","%char fs).
  rewrite (remove_all_digits fs Hfd).
  apply parseFloat_decimal; assumption.
Qed.

Lemma price_of_digits_witness :
  let item := first_item (page [fan]) in
  priceWhole item = "1,299" /\
  priceFraction item = "50" /\
  priceStr item = "$1,299.50" /\
  priceNum item = Fin (129950 # 100).
Proof.
  intros item.
  pose proof (price_of_digits item "1,299" "1299" "50" eq_refl eq_refl eq_refl
                ltac:(discriminate) eq_refl eq_refl ltac:(discriminate)) as [H1 H2].
  split; [reflexivity|]. split; [reflexivity|]. split; [exact H1 | exact H2].
Defined.

End Prices.

(** ** More on the coupon policy *)

Section CouponMore.
Import Str Dom Parse Regex Extractor Props Fixtures Samples Shapes.

Lemma youPay_at_head (s g : string) :
  youPay_at s = Some g -> exists c r, g = String c r /\ is_digit c = true.
Proof.
  unfold youPay_at. destruct (startsWith_ci "You pay $" s); [|discriminate].
  destruct (span is_digit (drop 9 s)) as [d1 r1] eqn:E.
  destruct d1 as [|c d1']; [discriminate|]. cbn [truthy].
  apply span_head in E as [Hc _].
  destruct (match r1 with
            | String "."%char r => (".", r)
            | _ => (EmptyString, r1)
            end) as [dot r2].
  destruct (span is_digit r2) as [d2 r3].
  intros [= <-]. cbn [append]. eauto.
Qed.

(** The displayed price next to the number, branch by branch. *)
Lemma final_price_display (item c : located) :
  couponElem item = Some c ->
  Num.gtb (priceNum item) (Fin 0) = true ->
  finalPrice item =
    match match_youPay (textContent (self item)), match_percent (textContent (self c)),
          match_dollar (textContent (self c)) with
    | None, None, None => priceStr item
    | _, _, _ => "$" ++ toFixed2 (finalPriceNum item)
    end.
Proof.
  intros Hc Hp. unfold finalPrice, finalPriceNum, final_price. rewrite Hc, Hp.
  destruct (match_youPay _); [reflexivity|].
  destruct (match_percent _); [reflexivity|].
  destruct (match_dollar _); reflexivity.
Qed.

Lemma finite_final_price (item : located) (b : Q) :
  priceNum item = Fin b -> exists q, finalPriceNum item = Fin q.
Proof.
  intros Hb.
  destruct (couponElem item) as [c|] eqn:Hc;
    [|exists b; unfold finalPriceNum; rewrite final_price_gate by (left; exact Hc);
      exact Hb].
  destruct (Num.gtb (priceNum item) (Fin 0)) eqn:Hp;
    [|exists b; unfold finalPriceNum; rewrite final_price_gate by (right; exact Hp);
      exact Hb].
  rewrite (final_price_branches item c Hc Hp), Hb.
  destruct (match_youPay (textContent (self item))) as [g|] eqn:Ey.
  { apply search_some in Ey as [t Ht].
    apply youPay_at_head in Ht as (x & r & -> & Hx).
    destruct (parseFloat_digit_head x r Hx) as (q & _ & ->). eauto. }
  destruct (match_percent (textContent (self c))) as [g|] eqn:Ep.
  { apply search_some in Ep as [t Ht].
    apply percent_at_head in Ht as (x & r & -> & Hx).
    destruct (parseInt_digit_head x r Hx) as (z & _ & ->).
    unfold Num.div. rewrite (sgn_pos 100) by reflexivity.
    cbn [Num.mul Num.sub]. eauto. }
  destruct (match_dollar (textContent (self c))) as [g|] eqn:Ed; [|eauto].
  apply search_some in Ed as [t Ht].
  apply dollar_at_head in Ht as (x & r & -> & Hx).
  destruct (parseFloat_digit_head x r Hx) as (d & _ & ->).
  cbn [Num.sub]. rewrite max_zero_fin. eauto.
Qed.

(** X6: from a finite base price the coupon arithmetic never produces
    [NaN], so such an entry always compares with the others when the
    rows are sorted; and the amount taken from a You pay phrase is never
    negative. *)
Theorem finite_price_never_nan (item : located) (b : Q) :
  priceNum item = Fin b ->
  finalPriceNum item <> NaN /\
  (forall c g, couponElem item = Some c -> 0 < b ->
               match_youPay (textContent (self item)) = Some g ->
               Num.leb (Fin 0) (finalPriceNum item) = true).
Proof.
  intros Hb. split.
  - destruct (finite_final_price item b Hb) as [q ->]. discriminate.
  - intros c g Hc Hpos Hg.
    assert (Hp : Num.gtb (priceNum item) (Fin 0) = true).
    { rewrite Hb. apply ltb_fin. exact Hpos. }
    rewrite (final_price_branches item c Hc Hp), Hg.
    apply search_some in Hg as [t Ht].
    apply youPay_at_head in Ht as (x & r & -> & Hx).
    destruct (parseFloat_digit_head x r Hx) as (q & Hq & ->).
    apply leb_fin. exact Hq.
Qed.

Lemma finite_price_never_nan_witness :
  let item := first_item (page [lamp]) in
  priceNum item = Fin (2500 # 100) /\
  Num.leb (Fin 0) (finalPriceNum item) = true.
Proof.
  intros item.
  assert (H : priceNum item = Fin (2500 # 100)) by reflexivity.
  split; [exact H|].
  exact (proj2 (finite_price_never_nan item (2500 # 100) H) (coupon_of item) "19.99"
           eq_refl eq_refl eq_refl).
Defined.

(** [b - b * (k / 100) >= 0] for a positive price and a rate of at most 100. *)
Lemma percent_nonneg (b k : Q) :
  0 < b -> k <= 100 ->
  Num.leb (Fin 0) (Num.sub (Fin b) (Num.mul (Fin b) (Num.div (Fin k) (Fin 100)))) = true.
Proof.
  intros Hb Hk. unfold Num.div. rewrite (sgn_pos 100) by reflexivity.
  cbn [Num.mul Num.sub]. apply leb_fin.
  assert (k / 100 <= 1) by (apply Qle_shift_div_r; [reflexivity | lra]).
  assert (0 <= b * (1 - k / 100)) by (apply Qmult_le_0_compat; lra).
  lra.
Qed.

(** X7: in the percentage branch a rate of at most 100 leaves the final
    price between 0 and the base price. *)
Theorem percent_up_to_100_in_range (item c : located) (b : Q) (g : string) :
  couponElem item = Some c ->
  priceNum item = Fin b ->
  0 < b ->
  match_youPay (textContent (self item)) = None ->
  match_percent (textContent (self c)) = Some g ->
  Num.leb (parseInt g) (Fin 100) = true ->
  Num.leb (Fin 0) (finalPriceNum item) = true /\
  Num.leb (finalPriceNum item) (priceNum item) = true /\
  finalPrice item = "$" ++ toFixed2 (finalPriceNum item).
Proof.
  intros Hc Hb Hpos Hyou Hg Hle.
  assert (Hp : Num.gtb (priceNum item) (Fin 0) = true).
  { rewrite Hb. apply ltb_fin. exact Hpos. }
  rewrite (final_price_display item c Hc Hp), Hyou, Hg.
  rewrite (final_price_branches item c Hc Hp), Hyou, Hg, Hb.
  apply search_some in Hg as [t Ht].
  apply percent_at_head in Ht as (x & r & -> & Hx).
  destruct (parseInt_digit_head x r Hx) as (z & Hz & E). rewrite E in *.
  apply leb_fin in Hle.
  split; [apply percent_nonneg; assumption|].
  split; [|reflexivity].
  apply percent_le; [exact Hpos|].
  change 0 with (inject_Z 0). rewrite <- Zle_Qle. exact Hz.
Qed.

Lemma percent_up_to_100_in_range_witness :
  let item := first_item (page [desk]) in
  priceNum item = Fin (4000 # 100) /\
  match_percent (textContent (self (coupon_of item))) = Some "20" /\
  Num.leb (Fin 0) (finalPriceNum item) = true /\
  finalPrice item = "$32.00".
Proof.
  intros item.
  pose proof (percent_up_to_100_in_range item (coupon_of item) (4000 # 100) "20"
                eq_refl eq_refl eq_refl eq_refl eq_refl eq_refl) as (H1 & _ & H3).
  split; [reflexivity|]. split; [reflexivity|]. split; [exact H1|].
  rewrite H3. reflexivity.
Defined.

(** X8: in the dollar branch an amount of at least the base price gives
    exactly 0, displayed as $0.00. *)
Theorem dollar_off_floors_at_zero (item c : located) (b d : Q) (g : string) :
  couponElem item = Some c ->
  priceNum item = Fin b ->
  0 < b ->
  match_youPay (textContent (self item)) = None ->
  match_percent (textContent (self c)) = None ->
  match_dollar (textContent (self c)) = Some g ->
  parseFloat g = Fin d ->
  b <= d ->
  finalPriceNum item = Fin 0 /\ finalPrice item = "$0.00".
Proof.
  intros Hc Hb Hpos Hyou Hper Hg Hd Hle.
  assert (Hp : Num.gtb (priceNum item) (Fin 0) = true).
  { rewrite Hb. apply ltb_fin. exact Hpos. }
  assert (Hn : finalPriceNum item = Fin 0).
  { rewrite (final_price_branches item c Hc Hp), Hyou, Hper, Hg, Hb, Hd.
    cbn [Num.sub]. rewrite max_zero_fin.
    destruct (Num.ltb (Fin 0) (Fin (b - d))) eqn:E; [|reflexivity].
    apply ltb_fin in E. lra. }
  split; [exact Hn|].
  rewrite (final_price_display item c Hc Hp), Hyou, Hper, Hg, Hn. reflexivity.
Qed.

Lemma dollar_off_floors_at_zero_witness :
  let item := first_item (page [pen]) in
  priceNum item = Fin (1000 # 100) /\
  match_dollar (textContent (self (coupon_of item))) = Some "15" /\
  finalPriceNum item = Fin 0 /\ finalPrice item = "$0.00".
Proof.
  intros item.
  pose proof (dollar_off_floors_at_zero item (coupon_of item) (1000 # 100) 15 "15"
                eq_refl eq_refl eq_refl eq_refl eq_refl eq_refl eq_refl
                ltac:(discriminate)) as [H1 H2].
  split; [reflexivity|]. split; [reflexivity|]. split; [exact H1 | exact H2].
Defined.

End CouponMore.

(** ** From the containers to the rows *)

Section Rows.
Import Str Dom Parse Regex Extractor Props Fixtures Samples Shapes.

(** X9: the three container selectors are tried in order and the first
    that finds an element gives the items; the later ones are used only
    when all the earlier ones found nothing. *)
Theorem container_fallback (d : document) :
  (document_querySelectorAll d sel_search_result <> [] ->
   find_items d = document_querySelectorAll d sel_search_result) /\
  (document_querySelectorAll d sel_search_result = [] ->
   document_querySelectorAll d sel_result_item <> [] ->
   find_items d = document_querySelectorAll d sel_result_item) /\
  (document_querySelectorAll d sel_search_result = [] ->
   document_querySelectorAll d sel_result_item = [] ->
   find_items d = document_querySelectorAll d sel_col_inner).
Proof.
  unfold find_items.
  destruct (document_querySelectorAll d sel_search_result) as [|x l];
    destruct (document_querySelectorAll d sel_result_item) as [|y m];
    repeat split; intros; try reflexivity; congruence.
Qed.

(** A page whose products carry only the class of the second strategy,
    inside a column of the third. *)
Example second_strategy :
  let d := page [box "div" [("class", "sg-col-inner")]
                   [box "div" [("class", "s-result-item")]
                      [heading "Lamp"; price_parts "9." "99"]]] in
  length (find_items d) = 1%nat /\
  map title (rendered d) = [Some "Lamp"].
Proof. split; reflexivity. Qed.

(** X10: when no selector finds a container in a document with a body,
    the markup is the style sheet, the controls and the table without
    any row. *)
Theorem no_container_empty_table (d : document) :
  body d <> None ->
  document_querySelectorAll d sel_search_result = [] ->
  document_querySelectorAll d sel_result_item = [] ->
  document_querySelectorAll d sel_col_inner = [] ->
  extractAmazonResultsWithFrameInfo d =
    inr (mkResult (location_href d) (html_head ++ "</tbody></table>")).
Proof.
  intros Hb H1 H2 H3. rewrite (extract_success d Hb).
  unfold rendered, find_items. rewrite H1, H2, H3. reflexivity.
Qed.

Lemma no_container_empty_table_witness :
  extractAmazonResultsWithFrameInfo (page [leaf "p" [] "No results for lamp."]) =
    inr (mkResult "https://www.amazon.com/s?k=lamp" (html_head ++ "</tbody></table>")).
Proof.
  exact (no_container_empty_table (page [leaf "p" [] "No results for lamp."])
           ltac:(discriminate) eq_refl eq_refl eq_refl).
Defined.


Lemma filter_insert (P : entry -> bool) (x : entry) (l : list entry) :
  (forall y, In y l -> after by_price x y = true -> P x && P y = false) ->
  filter P (insert by_price x l) = filter P (x :: l).
Proof.
  induction l as [|y l IH]; intros H; [reflexivity|].
  cbn [insert]. destruct (after by_price x y) eqn:E; [|reflexivity].
  cbn [filter]. rewrite IH by (intros z Hz; apply H; right; exact Hz).
  cbn [filter]. pose proof (H y (or_introl eq_refl) E) as Hxy.
  destruct (P x), (P y); try reflexivity; discriminate Hxy.
Qed.

Lemma same_price_not_after (x y : entry) (p : number) :
  Num.eqb (entry_priceNum x) p = true -> Num.eqb (entry_priceNum y) p = true ->
  after by_price x y = false.
Proof.
  unfold after, by_price.
  destruct (entry_priceNum x) as [| | |a], (entry_priceNum y) as [| | |b], p as [| | |c];
    try discriminate; try reflexivity.
  intros Ha Hb. apply Qeq_bool_eq in Ha. apply Qeq_bool_eq in Hb.
  cbn [Num.sub]. destruct (Num.gtb (Fin (a - b)) (Fin 0)) eqn:E; [|reflexivity].
  change (Num.ltb (Fin 0) (Fin (a - b)) = true) in E. apply ltb_fin in E. lra.
Qed.

(** X12: the sort is stable: among entries whose prices are numbers,
    those with the same effective price keep the order in which the page
    lists them. *)
Theorem equal_prices_keep_page_order (l : list entry) (p : number) :
  Forall not_nan l ->
  filter (fun e => Num.eqb (entry_priceNum e) p) (sort by_price l) =
  filter (fun e => Num.eqb (entry_priceNum e) p) l.
Proof.
  intros _. induction l as [|x l IH]; [reflexivity|].
  cbn [sort]. rewrite filter_insert.
  - cbn [filter]. rewrite IH. reflexivity.
  - intros y _ E.
    destruct (Num.eqb (entry_priceNum x) p) eqn:Hx; [|reflexivity].
    destruct (Num.eqb (entry_priceNum y) p) eqn:Hy; [|reflexivity].
    rewrite (same_price_not_after x y p Hx Hy) in E. discriminate E.
Qed.

Lemma equal_prices_keep_page_order_witness :
  let l := collect (find_items tie_page) in
  Forall not_nan l /\
  map title l = [Some "First"; Some "Cheap"; Some "Second"] /\
  map title (sort by_price l) = [Some "Cheap"; Some "First"; Some "Second"] /\
  map title (filter (fun e => Num.eqb (entry_priceNum e) (Fin 5)) (sort by_price l)) =
    [Some "First"; Some "Second"].
Proof.
  intros l.
  assert (H : Forall not_nan l) by (repeat constructor; discriminate).
  split; [exact H|]. split; [reflexivity|]. split; [reflexivity|].
  rewrite (equal_prices_keep_page_order l (Fin 5) H). reflexivity.
Defined.

End Rows.

(** * Further properties of the controller *)

Section ControllerMore.
Import Str Dom Parse Regex Extractor Props Fixtures Samples Controller.

Lemma startsWith_spec (p s : string) :
  startsWith p s = true <-> exists r, s = p ++ r.
Proof.
  revert s. induction p as [|a p IH]; intros s; cbn [startsWith append].
  - split; [eauto | reflexivity].
  - destruct s as [|b s]; [split; [discriminate | intros [r Hr]; discriminate]|].
    rewrite andb_true_iff, IH. split.
    + intros [Hab [r ->]]. apply Ascii.eqb_eq in Hab. subst. eauto.
    + intros [r Hr]. injection Hr as -> ->. split; [apply Ascii.eqb_refl | eauto].
Qed.

Lemma startsWith_cases (p s : string) :
  (exists r, s = p ++ r) \/ startsWith p s = false.
Proof.
  destruct (startsWith p s) eqn:E; [left; apply startsWith_spec; exact E | right; reflexivity].
Qed.

(** X13: the address test accepts exactly the addresses that begin with
    the scheme http or https, then the host prefix amazon. with or
    without www. in front; what follows is not examined. *)
Theorem amazon_url_prefixes (u : string) :
  amazon_url u = true <->
  exists rest,
    u = "http://amazon." ++ rest \/ u = "https://amazon." ++ rest \/
    u = "http://www.amazon." ++ rest \/ u = "https://www.amazon." ++ rest.
Proof.
  split.
  - unfold amazon_url.
    destruct (startsWith_cases "http" u) as [[r0 ->]|E]; [|rewrite E; discriminate].
    change (startsWith "http" ("http" ++ r0)) with true. cbv iota.
    change (drop 4 ("http" ++ r0)) with r0.
    destruct (startsWith_cases "s" r0) as [[r1 ->]|Es].
    + change (startsWith "s" ("s" ++ r1)) with true. cbv iota.
      change (drop 1 ("s" ++ r1)) with r1.
      destruct (startsWith_cases "://" r1) as [[r2 ->]|E]; [|rewrite E; discriminate].
      change (startsWith "://" ("://" ++ r2)) with true. cbv iota.
      change (drop 3 ("://" ++ r2)) with r2.
      destruct (startsWith_cases "www." r2) as [[r3 ->]|Ew].
      * change (startsWith "www." ("www." ++ r3)) with true.
        change (drop 4 ("www." ++ r3)) with r3.
        change (startsWith "amazon." ("www." ++ r3)) with false.
        rewrite orb_false_r, andb_true_l.
        intros H. apply startsWith_spec in H as [r4 ->]. exists r4. tauto.
      * rewrite Ew, andb_false_l, orb_false_l.
        intros H. apply startsWith_spec in H as [r4 ->]. exists r4. tauto.
    + rewrite Es.
      destruct (startsWith_cases "://" r0) as [[r2 ->]|E]; [|rewrite E; discriminate].
      change (startsWith "://" ("://" ++ r2)) with true. cbv iota.
      change (drop 3 ("://" ++ r2)) with r2.
      destruct (startsWith_cases "www." r2) as [[r3 ->]|Ew].
      * change (startsWith "www." ("www." ++ r3)) with true.
        change (drop 4 ("www." ++ r3)) with r3.
        change (startsWith "amazon." ("www." ++ r3)) with false.
        rewrite orb_false_r, andb_true_l.
        intros H. apply startsWith_spec in H as [r4 ->]. exists r4. tauto.
      * rewrite Ew, andb_false_l, orb_false_l.
        intros H. apply startsWith_spec in H as [r4 ->]. exists r4. tauto.
  - intros [rest [-> | [-> | [-> | ->]]]]; reflexivity.
Qed.

(** The test looks at the beginning of the host only. *)
Example amazon_url_other_hosts :
  amazon_url "https://amazon.example.org/" = true /\
  amazon_url "https://www.amazon.com.example.org/" = true /\
  amazon_url "https://smile.amazon.com/" = false /\
  amazon_url "HTTPS://www.amazon.com/" = false.
Proof. repeat split. Qed.


(** Frames without a result, with an empty markup and with the
    empty-list text are passed over. *)
Example frames_passed_over :
  first_usable
    [mkFrame None; mkFrame (Some (mkResult "a" "")); mkFrame (Some (mkResult "b" "<ul></ul>"));
     mkFrame (Some (mkResult "c" "<p>x</p>")); mkFrame (Some (mkResult "d" "<p>y</p>"))]
  = Some "<p>x</p>" /\
  first_usable [mkFrame None; mkFrame (Some (mkResult "b" "<ul></ul>"))] = None.
Proof. split; reflexivity. Qed.

(** X15: the script is injected only when the popup has its display
    area and the first tab of the query has an address that passes the
    test; it is then injected once, into that tab. *)
Theorem injects_only_on_site (w : world) :
  injected (handleExtract w) <> [] ->
  has_resultsDiv w = true /\
  exists t rest u,
    tabs_query w = inr (t :: rest) /\ tab_url t = Some u /\ amazon_url u = true /\
    handleExtract w = mkEffects (Some (on_results w)) [tab_id t].
Proof.
  unfold handleExtract.
  destruct (has_resultsDiv w); cbn [negb]; [|intros H; exfalso; apply H; reflexivity].
  destruct (tabs_query w) as [e|[|t rest]];
    try (intros H; exfalso; apply H; reflexivity).
  destruct (tab_url t) as [u|] eqn:Eu;
    [|intros H; exfalso; apply H; reflexivity].
  destruct (truthy u); cbn [negb]; [|intros H; exfalso; apply H; reflexivity].
  destruct (amazon_url u) eqn:Ea; cbn [negb];
    [|intros H; exfalso; apply H; reflexivity].
  intros _. split; [reflexivity|].
  exists t, rest, u. repeat split; reflexivity || assumption.
Qed.

Lemma injects_only_on_site_witness :
  let w := mkWorld true
             (inr [mkTab 3 (Some "https://www.amazon.com/s?k=lamp"); mkTab 4 None])
             None (Some [mkFrame None]) in
  injected (handleExtract w) = [3%Z] /\
  resultsDiv (handleExtract w) = Some (InnerHTML "No results found.").
Proof.
  intros w.
  assert (H : injected (handleExtract w) <> []) by discriminate.
  destruct (injects_only_on_site w H) as (_ & t & rest & u & Hq & _ & _ & E).
  unfold w in Hq. cbn [tabs_query] in Hq. injection Hq as <- <-.
  rewrite E. split; reflexivity.
Defined.

(** X16: a run of the controller with a display area always ends with a
    write to it, whatever the browser answers; a rejected tab query is
    shown as an exception with its message, without any injection; and
    without a display area the run has no effect at all. *)
Theorem controller_always_reports (w : world) :
  (has_resultsDiv w = true -> resultsDiv (handleExtract w) <> None) /\
  (has_resultsDiv w = true ->
   forall e, tabs_query w = inl e ->
             handleExtract w = shows (InnerText ("Exception: " ++ message e))) /\
  (has_resultsDiv w = false -> handleExtract w = nothing).
Proof.
  unfold handleExtract. destruct (has_resultsDiv w); cbn [negb].
  - split; [|split; [|discriminate]].
    + intros _. destruct (tabs_query w) as [e|[|t rest]]; try discriminate.
      destruct (tab_url t) as [u|]; [|discriminate].
      destruct (truthy u); cbn [negb]; [|discriminate].
      destruct (amazon_url u); cbn [negb]; discriminate.
    + intros _ e ->. reflexivity.
  - split; [discriminate|]. split; [discriminate | reflexivity].
Qed.

(** A tab query that is rejected. *)
Example query_rejected :
  handleExtract (mkWorld true (inl (mkExn "Tabs cannot be queried right now")) None None) =
    mkEffects (Some (InnerText "Exception: Tabs cannot be queried right now")) [].
Proof. reflexivity. Qed.

(** X17: in the callback of the injection a platform error is shown
    instead of any result, and markup is written to the display area only
    as the output of the first usable frame, or else as the fixed text
    that nothing was found. *)
Theorem markup_only_from_usable_frame (w : world) :
  (forall m, lastError w = Some m -> on_results w = InnerText ("Error: " ++ m)) /\
  (forall s, on_results w = InnerHTML s ->
             lastError w = None /\
             exists frames,
               results w = Some frames /\ frames <> [] /\
               (first_usable frames = Some s \/
                first_usable frames = None /\ s = "No results found.")).
Proof.
  unfold on_results. split.
  - intros m ->. reflexivity.
  - intros s. destruct (lastError w); [discriminate|].
    destruct (results w) as [[|f frames]|]; try discriminate.
    intros H. split; [reflexivity|]. exists (f :: frames).
    split; [reflexivity|]. split; [discriminate|].
    destruct (first_usable (f :: frames)); injection H as <-; [left | right]; auto.
Qed.

(** An error of the platform next to results that would be usable. *)
Example platform_error_first :
  on_results (mkWorld true (inr []) (Some "Cannot access contents of the page")
                (Some [mkFrame (Some (mkResult "u" "<p>x</p>"))])) =
    InnerText "Error: Cannot access contents of the page".
Proof. reflexivity. Qed.

End ControllerMore.

(** * Further properties of the popup *)

Section PopupMore.
Import Str Dom Props Fixtures Samples Popup Traces.

Lemma showRow_filter_row (tf tf' : string) (ta tm ta' tm' : bool) (r : row) :
  showRow tf ta tm (filter_row tf' ta' tm' r) = showRow tf ta tm r.
Proof.
  unfold showRow, row_title, attr_is_true.
  rewrite (proj1 (filter_row_keeps tf' ta' tm' r)). reflexivity.
Qed.

Lemma remove_app (c : string) (l m : list string) :
  remove c (l ++ m)%list = (remove c l ++ remove c m)%list.
Proof. unfold remove. apply filter_app. Qed.

Lemma other_classes_filter_row (tf : string) (ta tm : bool) (r : row) :
  other_classes (filter_row tf ta tm r) = other_classes r.
Proof.
  unfold other_classes, filter_row.
  destruct (showRow tf ta tm r); cbn [row_classList].
  - apply remove_idempotent.
  - unfold add. destruct (contains "hidden" (row_classList r)); [reflexivity|].
    rewrite remove_app. cbn. apply app_nil_r.
Qed.

Lemma visible_applyFilters (p : popup) :
  map visible (rows (applyFilters p)) =
  map (showRow (textFilter p) (deliveryTodayActive p) (deliveryTomorrowActive p)) (rows p).
Proof.
  cbn [applyFilters rows]. rewrite map_map. apply map_ext.
  intros r. apply visible_filter_row.
Qed.

Lemma in_sync_applyFilters (p : popup) : in_sync (applyFilters p).
Proof.
  intros r' Hr'. cbn [applyFilters rows] in Hr'.
  apply in_map_iff in Hr' as (r & <- & _).
  change (textFilter (applyFilters p)) with (textFilter p).
  change (deliveryTodayActive (applyFilters p)) with (deliveryTodayActive p).
  change (deliveryTomorrowActive (applyFilters p)) with (deliveryTomorrowActive p).
  rewrite visible_filter_row, showRow_filter_row. reflexivity.
Qed.

(** A handler either leaves the popup as it is or ends with
    [applyFilters] on the same rows. *)
Lemma on_click_cases (t : string) (p : popup) :
  on_click t p = p \/
  exists fi td tm, on_click t p = applyFilters (mkPopup fi td tm (rows p)).
Proof.
  unfold on_click.
  destruct (String.eqb_spec t "delivery-today-filter") as [->|H1].
  { right. cbn [String.eqb Ascii.eqb Bool.eqb andb]. eauto. }
  destruct (String.eqb_spec t "delivery-tomorrow-filter") as [->|H2].
  { right. cbn [String.eqb Ascii.eqb Bool.eqb andb]. eauto. }
  destruct (String.eqb_spec t "clear-filters") as [->|H3]; [right; eauto | left; reflexivity].
Qed.

Lemma step_cases (e : event) (p : popup) :
  step e p = p \/
  exists fi td tm, step e p = applyFilters (mkPopup fi td tm (rows p)).
Proof.
  destruct e as [v|t]; cbn [step]; [|apply on_click_cases].
  unfold type_text. destruct (filterInput p); [right | left; reflexivity].
  unfold on_input. cbn [String.eqb Ascii.eqb Bool.eqb andb]. eauto.
Qed.

(** X18: whatever the user types and clicks, the popup keeps the same
    rows in the same order, and each row keeps its classes other than
    [hidden]: the handlers change nothing else of a row. *)
Theorem events_keep_rows (es : list event) (p : popup) :
  map row_elem (rows (run es p)) = map row_elem (rows p) /\
  map other_classes (rows (run es p)) = map other_classes (rows p).
Proof.
  revert p. induction es as [|e es IH]; intros p; cbn [run]; [split; reflexivity|].
  destruct (IH (step e p)) as [H1 H2]. rewrite H1, H2.
  destruct (step_cases e p) as [->|(fi & td & tm & ->)]; [split; reflexivity|].
  cbn [applyFilters rows]. rewrite !map_map. split; apply map_ext; intros r.
  - apply (proj1 (filter_row_keeps _ _ _ r)).
  - apply other_classes_filter_row.
Qed.

(** X19: once the rows show what the controls say, they do so after
    every further event; and they do so after any evaluation of the
    filters. *)
Theorem events_keep_rows_in_sync (es : list event) (p : popup) :
  (in_sync p -> in_sync (run es p)) /\ in_sync (applyFilters p).
Proof.
  split; [|apply in_sync_applyFilters].
  revert p. induction es as [|e es IH]; intros p Hp; cbn [run]; [exact Hp|].
  apply IH. destruct (step_cases e p) as [->|(fi & td & tm & ->)]; [exact Hp|].
  apply in_sync_applyFilters.
Qed.

(** The table as it is first shown, then a word typed, a toggle clicked
    and another word typed. *)
Lemma events_keep_rows_in_sync_witness :
  let p := sample_popup "" ["delivery-filter"] ["delivery-filter"] in
  let p0 := mkPopup (filterInput p) (deliveryTodayFilter p) (deliveryTomorrowFilter p)
              [row_today; row_later] in
  let es := [Typed "k"; Clicked "delivery-today-filter"; Typed "La"] in
  in_sync p0 /\
  map visible (rows (run es p0)) = [true; false] /\
  in_sync (run es p0).
Proof.
  intros p p0 es.
  assert (H : in_sync p0).
  { intros r [<-|[<-|[]]]; reflexivity. }
  split; [exact H|]. split; [reflexivity|].
  exact (proj1 (events_keep_rows_in_sync es p0) H).
Defined.

Lemma contains_toggle (c : string) (l : list string) :
  contains c (toggle c l) = negb (contains c l).
Proof.
  unfold toggle. destruct (contains c l) eqn:E; cbn [negb].
  - apply contains_remove_same.
  - apply contains_add_same.
Qed.

(** What a click on a toggle does to the popup. *)
Lemma on_click_today (p : popup) :
  on_click "delivery-today-filter" p =
    applyFilters
      (mkPopup (filterInput p) (option_map (toggle "active") (deliveryTodayFilter p))
         (deliveryTomorrowFilter p) (rows p)).
Proof. reflexivity. Qed.

Lemma on_click_tomorrow (p : popup) :
  on_click "delivery-tomorrow-filter" p =
    applyFilters
      (mkPopup (filterInput p) (deliveryTodayFilter p)
         (option_map (toggle "active") (deliveryTomorrowFilter p)) (rows p)).
Proof. reflexivity. Qed.

(** Filters evaluated on rows that were filtered before, under controls
    that say the same, show the same rows. *)
Lemma visible_refiltered (q p : popup) (tf : string) (ta tm : bool) :
  textFilter q = textFilter p ->
  deliveryTodayActive q = deliveryTodayActive p ->
  deliveryTomorrowActive q = deliveryTomorrowActive p ->
  rows q = map (filter_row tf ta tm) (rows p) ->
  map visible (rows (applyFilters q)) = map visible (rows (applyFilters p)).
Proof.
  intros H1 H2 H3 H4. rewrite !visible_applyFilters, H1, H2, H3, H4, map_map.
  apply map_ext. intros r. apply showRow_filter_row.
Qed.

Lemma toggle_twice_active (o : option (list string)) :
  match option_map (toggle "active") (option_map (toggle "active") o) with
  | Some l => contains "active" l
  | None => false
  end = match o with Some l => contains "active" l | None => false end.
Proof.
  destruct o as [l|]; [|reflexivity]. cbn [option_map].
  rewrite !contains_toggle. apply negb_involutive.
Qed.

(** X20: a second click on a delivery toggle undoes the first: the
    toggle is active as before and the rows shown are those the filters
    select in the state before the two clicks. *)
Theorem toggle_twice_restores (p : popup) :
  let today2 := on_click "delivery-today-filter" (on_click "delivery-today-filter" p) in
  let tomorrow2 :=
    on_click "delivery-tomorrow-filter" (on_click "delivery-tomorrow-filter" p) in
  deliveryTodayActive today2 = deliveryTodayActive p /\
  map visible (rows today2) = map visible (rows (applyFilters p)) /\
  deliveryTomorrowActive tomorrow2 = deliveryTomorrowActive p /\
  map visible (rows tomorrow2) = map visible (rows (applyFilters p)).
Proof.
  cbv zeta. rewrite !on_click_today, !on_click_tomorrow.
  split; [apply toggle_twice_active|].
  split; [|split; [apply toggle_twice_active|]].
  - eapply visible_refiltered; try reflexivity. apply toggle_twice_active.
  - eapply visible_refiltered; try reflexivity. apply toggle_twice_active.
Qed.

Lemma startsWith_app_l (a b s : string) :
  startsWith (a ++ b) s = true -> startsWith a s = true.
Proof.
  revert s. induction a as [|x a IH]; intros s; [reflexivity|].
  cbn [append startsWith]. destruct s as [|y s]; [discriminate|].
  intros H. apply andb_true_iff in H as [H1 H2].
  rewrite H1, (IH s H2). reflexivity.
Qed.

Lemma includes_app_l (s a b : string) :
  includes s (a ++ b) = true -> includes s a = true.
Proof.
  induction s as [|y s IH]; cbn [includes]; intros H.
  - rewrite orb_false_r in *. apply (startsWith_app_l a b). exact H.
  - apply orb_true_iff in H as [H|H]; apply orb_true_iff.
    + left. apply (startsWith_app_l a b). exact H.
    + right. apply IH. exact H.
Qed.



(** The table after typing k and after typing ki. *)
Example typing_narrows :
  let p := mkPopup (Some "") (Some []) (Some []) [row_today; row_later; row_tomorrow] in
  map visible (rows (type_text "k" p)) = [true; true; false] /\
  map visible (rows (type_text "ki" p)) = [false; true; false].
Proof. split; reflexivity. Qed.

End PopupMore.

(** * The amount of a You pay phrase *)

Section YouPayAmounts.
Import Str Dom Parse Regex Extractor Props Fixtures Samples.

(** C2: the amount of a You pay phrase is read by a pattern of digits, an
    optional dot and digits, while the listed price has its commas
    removed before it is parsed.  So the phrase does not always fix the
    final price to its amount: the sofa, listed at $1,500.00 with the
    line You pay $1,350.00, comes out at 1, shown as $1.00; and the mint,
    with the line You pay $.85, is not matched at all and gets the price
    of its 10% coupon, $0.90. *)
Theorem you_pay_amount_misread :
  (let item := first_item (page [sofa]) in
   couponElem item <> None /\
   priceStr item = "$1,500.00" /\
   priceNum item = Fin (150000 # 100) /\
   includes (textContent (self item)) "You pay $1,350.00" = true /\
   match_youPay (textContent (self item)) = Some "1" /\
   finalPriceNum item = Fin 1 /\
   finalPrice item = "$1.00") /\
  (let item := first_item (page [mint]) in
   couponElem item <> None /\
   priceNum item = Fin (100 # 100) /\
   includes (textContent (self item)) "You pay $.85" = true /\
   match_youPay (textContent (self item)) = None /\
   Num.eqb (finalPriceNum item) (Fin (90 # 100)) = true /\
   finalPrice item = "$0.90").
Proof.
  split; cbv zeta; repeat split; try (vm_compute; reflexivity);
    vm_compute; discriminate.
Qed.

End YouPayAmounts.

(** * From the items to the returned markup *)

Section Output.
Import Str Dom Parse Regex Extractor Props Fixtures Samples.

Lemma append_empty_r (s : string) : s ++ "" = s.
Proof. induction s as [|c s IH]; cbn [append]; [reflexivity | rewrite IH; reflexivity]. Qed.



(** The rows as the concatenation of the markup of each entry. *)
Lemma html_rows_concat (l : list entry) :
  html_rows l = String.concat "" (map html_row l).
Proof.
  induction l as [|e l IH]; [reflexivity|]. cbn [html_rows map String.concat].
  rewrite IH. destruct (map html_row l) eqn:E; [|reflexivity].
  cbn [String.concat]. apply append_empty_r.
Qed.






(** X11: in a document with a body the table holds exactly one row for
    each found item that has a title and a link: the markup is the head,
    the rows of the sorted entries one after the other and the closing
    tags, the sorted entries are those of such items, and there are as
    many of them as there are such items. *)
Theorem rows_are_kept_items (d : document) :
  body d <> None ->
  exists r,
    extractAmazonResultsWithFrameInfo d = inr r /\
    html r = html_head ++ String.concat "" (map html_row (rendered d)) ++ "</tbody></table>" /\
    (forall e, In e (rendered d) <->
               exists item, In item (find_items d) /\ process_item item = Some e) /\
    Permutation (collect (find_items d)) (rendered d) /\
    length (rendered d) = length (filter has_title_and_link (find_items d)).
Proof.
  intros Hb. eexists. split; [apply (extract_success d Hb)|]. cbn [html].
  split; [rewrite html_rows_concat; reflexivity|].
  unfold rendered. split; [|split].
  - intros e. rewrite <- collect_In. split; intros H.
    + eapply Permutation_in; [symmetry; apply sort_perm | exact H].
    + eapply Permutation_in; [apply sort_perm | exact H].
  - apply sort_perm.
  - rewrite <- collect_length. symmetry. apply Permutation_length. apply sort_perm.
Qed.

Lemma rows_are_kept_items_witness :
  let d := page [desk; untitled; ghost] in
  body d <> None /\
  length (filter has_title_and_link (find_items d)) = 2%nat /\
  exists r,
    extractAmazonResultsWithFrameInfo d = inr r /\
    html r = html_head ++ html_row (nth 0 (rendered d) (mkEntry None None "" NaN false "" false false))
                       ++ html_row (nth 1 (rendered d) (mkEntry None None "" NaN false "" false false))
                       ++ "</tbody></table>" /\
    map title (rendered d) = [Some "Ghost"; Some "Desk"].
Proof.
  intros d.
  assert (Hb : body d <> None) by discriminate.
  destruct (rows_are_kept_items d Hb) as (r & Hr & Hh & _).
  split; [exact Hb|]. split; [reflexivity|].
  exists r. split; [exact Hr|]. split; [|reflexivity].
  rewrite Hh. vm_compute. reflexivity.
Defined.

End Output.

(** * The row filter over any lower-casing *)

Section FilterAnyCase.
Import Str Dom Props Fixtures Samples Popup.

Variable lower : string -> string.

(** [Popup] is the instance of [FilterWith] at the ASCII lower-casing. *)
Lemma applyFilters_instance (p : popup) :
  Popup.applyFilters p = FilterWith.applyFilters toLowerCase p.
Proof. reflexivity. Qed.

(** The attribute test is the comparison of the attribute with the text
    true. *)
Lemma attr_is_true_spec (r : row) (k : string) :
  attr_is_true r k = true <-> getAttribute (self (row_elem r)) k = Some "true".
Proof.
  unfold attr_is_true. destruct (getAttribute (self (row_elem r)) k) as [v|].
  - rewrite String.eqb_eq. split; congruence.
  - split; discriminate.
Qed.

Lemma showRow_with_spec (tf : string) (ta tm : bool) (r : row) :
  FilterWith.showRow lower tf ta tm r =
    (negb (truthy tf) || includes (FilterWith.row_title lower r) tf)
    && (negb (ta || tm)
        || (ta && attr_is_true r "data-delivery-today")
        || (tm && attr_is_true r "data-delivery-tomorrow")).
Proof.
  unfold FilterWith.showRow.
  destruct (truthy tf), (includes (FilterWith.row_title lower r) tf), ta, tm,
    (attr_is_true r "data-delivery-today"),
    (attr_is_true r "data-delivery-tomorrow"); reflexivity.
Qed.

Lemma visible_filter_row_with (tf : string) (ta tm : bool) (r : row) :
  visible (FilterWith.filter_row lower tf ta tm r) = FilterWith.showRow lower tf ta tm r.
Proof.
  unfold FilterWith.filter_row, visible.
  destruct (FilterWith.showRow lower tf ta tm r); cbn [row_classList].
  - rewrite contains_remove_same. reflexivity.
  - rewrite contains_add_same. reflexivity.
Qed.

Lemma filter_row_with_keeps (tf : string) (ta tm : bool) (r : row) :
  row_elem (FilterWith.filter_row lower tf ta tm r) = row_elem r /\
  (forall c, c <> "hidden" ->
             contains c (row_classList (FilterWith.filter_row lower tf ta tm r)) =
             contains c (row_classList r)).
Proof.
  unfold FilterWith.filter_row.
  destruct (FilterWith.showRow lower tf ta tm r); cbn [row_elem row_classList];
    split; try reflexivity; intros c Hc.
  - apply contains_remove_other. exact Hc.
  - apply contains_add_other. exact Hc.
Qed.

(** C4: whatever the lower-casing does to text, provided it leaves the
    empty text empty: re-evaluation keeps every row in its place and
    changes nothing but the presence of the class [hidden]; a row ends up
    without that class exactly when the filter text is empty or its
    lower-cased form occurs in the lower-cased link text, and either no
    toggle is active or an active toggle finds its attribute of the row
    equal to the text true. *)
Theorem filter_shows_matching_rows (p : popup) :
  lower "" = "" ->
  filterInput (FilterWith.applyFilters lower p) = filterInput p /\
  deliveryTodayFilter (FilterWith.applyFilters lower p) = deliveryTodayFilter p /\
  deliveryTomorrowFilter (FilterWith.applyFilters lower p) = deliveryTomorrowFilter p /\
  Forall2
    (fun r r' =>
       row_elem r' = row_elem r /\
       (forall c, c <> "hidden" ->
                  contains c (row_classList r') = contains c (row_classList r)) /\
       (contains "hidden" (row_classList r') = false <->
        (filter_value p = "" \/
         includes (lower (link_text r)) (lower (filter_value p)) = true) /\
        ((deliveryTodayActive p = false /\ deliveryTomorrowActive p = false) \/
         (deliveryTodayActive p = true /\
          getAttribute (self (row_elem r)) "data-delivery-today" = Some "true") \/
         (deliveryTomorrowActive p = true /\
          getAttribute (self (row_elem r)) "data-delivery-tomorrow" = Some "true"))))
    (rows p) (rows (FilterWith.applyFilters lower p)).
Proof.
  intros Hempty. repeat (split; [reflexivity|]).
  cbn [FilterWith.applyFilters rows].
  assert (Htf : FilterWith.textFilter lower p = lower (filter_value p)).
  { unfold FilterWith.textFilter, filter_value.
    destruct (filterInput p); [reflexivity | symmetry; exact Hempty]. }
  induction (rows p) as [|r l IH]; [constructor|].
  cbn [map]. constructor; [|exact IH].
  destruct (filter_row_with_keeps (FilterWith.textFilter lower p) (deliveryTodayActive p)
              (deliveryTomorrowActive p) r) as [H1 H2].
  split; [exact H1|]. split; [exact H2|].
  assert (Htitle : FilterWith.row_title lower r = lower (link_text r)).
  { unfold FilterWith.row_title, link_text.
    destruct (querySelector (row_elem r) [[Tag "a"]]);
      [reflexivity | symmetry; exact Hempty]. }
  assert (Hv : forall x, contains "hidden" (row_classList x) = false <-> visible x = true).
  { intros x. unfold visible. rewrite negb_true_iff. reflexivity. }
  rewrite Hv, visible_filter_row_with, showRow_with_spec, Htitle, Htf.
  rewrite andb_true_iff, !orb_true_iff, !andb_true_iff, negb_true_iff, negb_true_iff.
  rewrite orb_false_iff, !attr_is_true_spec.
  assert (Ht : truthy (lower (filter_value p)) = false ->
               includes (lower (link_text r)) (lower (filter_value p)) = true).
  { destruct (lower (filter_value p)); [intros _; apply includes_empty | discriminate]. }
  assert (He : filter_value p = "" -> truthy (lower (filter_value p)) = false).
  { intros ->. rewrite Hempty. reflexivity. }
  tauto.
Qed.

End FilterAnyCase.

Section FilterSamples.
Import Str Dom Props Fixtures Samples Popup.

Lemma Forall2_head {A B : Type} (R : A -> B -> Prop) (x : A) (y : B)
      (l : list A) (m : list B) :
  Forall2 R (x :: l) (y :: m) -> R x y.
Proof. intros H. inversion H. assumption. Qed.

Lemma Forall2_tail {A B : Type} (R : A -> B -> Prop) (x : A) (y : B)
      (l : list A) (m : list B) :
  Forall2 R (x :: l) (y :: m) -> Forall2 R l m.
Proof. intros H. inversion H. assumption. Qed.

(** The table with the word LAMP typed in capitals, and the table with
    both toggles active: the first shows the lamp alone, the second the
    rows marked for today and for tomorrow and not the unmarked one. *)
Lemma filter_shows_matching_rows_witness :
  let words := sample_popup "LAMP" ["delivery-filter"] ["delivery-filter"] in
  let toggles :=
    sample_popup "" ["delivery-filter"; "active"] ["delivery-filter"; "active"] in
  toLowerCase "" = "" /\
  Popup.applyFilters words = FilterWith.applyFilters toLowerCase words /\
  map link_text (rows words) = ["Desk Lamp"; "USB Cable"; "Kite"] /\
  map (fun r => getAttribute (self (row_elem r)) "data-delivery-today") (rows toggles) =
    [Some "true"; Some "false"; Some "false"] /\
  map (fun r => getAttribute (self (row_elem r)) "data-delivery-tomorrow") (rows toggles) =
    [Some "false"; Some "true"; Some "false"] /\
  map visible (rows (FilterWith.applyFilters toLowerCase words)) = [true; false; false] /\
  map visible (rows (FilterWith.applyFilters toLowerCase toggles)) = [true; true; false] /\
  contains "hidden"
    (row_classList (hd row_later (rows (FilterWith.applyFilters toLowerCase words)))) = false /\
  contains "hidden"
    (row_classList (last (rows (FilterWith.applyFilters toLowerCase toggles)) row_today)) = true.
Proof.
  intros words toggles.
  pose proof (filter_shows_matching_rows toLowerCase words eq_refl) as (_ & _ & _ & Hw).
  pose proof (filter_shows_matching_rows toLowerCase toggles eq_refl) as (_ & _ & _ & Ht).
  do 7 (split; [reflexivity|]). split.
  - destruct (Forall2_head _ _ _ _ _ Hw) as (_ & _ & Hiff).
    apply Hiff. split; [right; reflexivity | left; split; reflexivity].
  - destruct (Forall2_head _ _ _ _ _ (Forall2_tail _ _ _ _ _ (Forall2_tail _ _ _ _ _ Ht)))
      as (_ & _ & Hiff).
    match goal with |- ?c = true => destruct c eqn:E end; [reflexivity|].
    apply Hiff in E. destruct E as [_ [[A _]|[[_ B]|[_ B]]]]; discriminate.
Defined.

(** X21: typing on narrows the table whenever lower-casing the longer
    filter text gives the lower-cased shorter text followed by the
    lower-cased addition, as it does for ASCII text: a row shown for the
    longer text is then shown for the shorter one as well. *)
Theorem longer_filter_shows_fewer (lower : string -> string) (v more : string)
        (today tomorrow : option (list string)) (rs : list row) :
  lower (v ++ more) = lower v ++ lower more ->
  Forall2 (fun shorter longer => visible longer = true -> visible shorter = true)
    (rows (FilterWith.applyFilters lower (mkPopup (Some v) today tomorrow rs)))
    (rows (FilterWith.applyFilters lower (mkPopup (Some (v ++ more)) today tomorrow rs))).
Proof.
  intros Happ. cbn [FilterWith.applyFilters rows].
  unfold FilterWith.textFilter, deliveryTodayActive, deliveryTomorrowActive.
  cbn [filterInput deliveryTodayFilter deliveryTomorrowFilter].
  induction rs as [|r l IH]; cbn [map]; constructor; [|exact IH].
  rewrite !visible_filter_row_with, !showRow_with_spec, Happ.
  rewrite !andb_true_iff, !orb_true_iff. intros [[H|H] HD]; split; try exact HD.
  - right. apply negb_true_iff in H.
    destruct (lower v); [apply includes_empty | discriminate H].
  - right. apply (includes_app_l _ _ _ H).
Qed.

Lemma longer_filter_shows_fewer_witness :
  let rs := [row_today; row_later; row_tomorrow] in
  toLowerCase ("K" ++ "i") = toLowerCase "K" ++ toLowerCase "i" /\
  map visible (rows (FilterWith.applyFilters toLowerCase (mkPopup (Some "K") None None rs))) =
    [true; true; false] /\
  map visible (rows (FilterWith.applyFilters toLowerCase (mkPopup (Some "Ki") None None rs))) =
    [false; true; false] /\
  Forall2 (fun shorter longer => visible longer = true -> visible shorter = true)
    (rows (FilterWith.applyFilters toLowerCase (mkPopup (Some "K") None None rs)))
    (rows (FilterWith.applyFilters toLowerCase (mkPopup (Some "Ki") None None rs))).
Proof.
  intros rs. split; [reflexivity|]. split; [reflexivity|]. split; [reflexivity|].
  exact (longer_filter_shows_fewer toLowerCase "K" "i" None None rs eq_refl).
Defined.

End FilterSamples.
